(** * led.c : a four-line LED sequencer kernel module

    A shallow embedding of [src/led.c]: the sysfs store callbacks
    ([mode_store], [period_store]) and the kthread loop [flash] that walks
    the four GPIO lines LED1..LED4 through one of three cyclic patterns.

    Integers are modelled as [Z] with the C wrap-around written out, C strings
    as [string] read with an implicit terminating NUL, the module's globals as
    a record that every operation threads, and the calls into the kernel
    (gpio_set_value, msleep, printk, kthread_should_stop, set_current_state)
    as events appended to a trace. *)

From Stdlib Require Import ZArith List String Ascii Bool Lia.
Import ListNotations.

Local Open Scope Z_scope.

(** ** Machine integers *)

Module CInt.

(** [unsigned int] is 32 bits wide on every Linux target. *)
Definition UINT_BITS : Z := 32.

Definition to_uint (v : Z) : Z := v mod 2 ^ UINT_BITS.

(** Conversions to and from [size_t] / [ssize_t], whose width is the
    machine word ([bits], 32 or 64 depending on the kernel build). *)
Definition to_size_t (bits v : Z) : Z := v mod 2 ^ bits.

Definition to_ssize_t (bits v : Z) : Z :=
  let u := v mod 2 ^ bits in
  if u <? 2 ^ (bits - 1) then u else u - 2 ^ bits.


End CInt.

(** ** C strings

    A buffer is the [string] of its bytes; reading at or past its end yields
    the terminating NUL that sysfs writes behind every request. *)

Module CString.

Definition NUL : ascii := "000"%char.
Definition LF : ascii := "010"%char.

Definition code (c : ascii) : Z := Z.of_N (N_of_ascii c).

(** A request as [echo] sends it: the token followed by a newline. *)
Definition line (s : string) : string := (s ++ String LF EmptyString)%string.

Definition nbytes (s : string) : Z := Z.of_nat (String.length s).

(** The kernel's [strncmp] (lib/string.c): compare at most [count] bytes,
    stop at the first difference or at a NUL. *)
Fixpoint strncmp (cs ct : string) (count : Z) : Z :=
  if count =? 0 then 0
  else
    let c1 := match cs with String c _ => c | EmptyString => NUL end in
    let c2 := match ct with String c _ => c | EmptyString => NUL end in
    if negb (code c1 =? code c2) then (if code c1 <? code c2 then -1 else 1)
    else if code c1 =? 0 then 0
    else
      match cs with
      | String _ cs' =>
          strncmp cs' (match ct with String _ ct' => ct' | EmptyString => EmptyString end)
                  (count - 1)
      | EmptyString => 0
      end.

Definition isspace (c : ascii) : bool :=
  let n := code c in
  ((9 <=? n) && (n <=? 13)) || (n =? 32) || (n =? 160).

Definition isdigit (c : ascii) : bool :=
  let n := code c in (48 <=? n) && (n <=? 57).

Fixpoint skip_spaces (s : string) : string :=
  match s with
  | String c s' => if isspace c then skip_spaces s' else s
  | EmptyString => EmptyString
  end.

(** Value of the leading run of decimal digits, most significant first. *)
Fixpoint digits (acc : Z) (s : string) : Z :=
  match s with
  | String c s' => if isdigit c then digits (10 * acc + (code c - 48)) s' else acc
  | EmptyString => acc
  end.

Definition starts_with_digit (s : string) : bool :=
  match s with String c _ => isdigit c | EmptyString => false end.

(** The [%d] conversion of the kernel's [sscanf]: skip white space, accept
    an optional minus sign, then read decimal digits.  [None] when no
    conversion takes place (the destination is then left untouched). *)
Definition sscanf_d (buf : string) : option Z :=
  let s := skip_spaces buf in
  match s with
  | String c s' =>
      if code c =? 45 then
        if starts_with_digit s' then Some (- digits 0 s') else None
      else if isdigit c then Some (digits 0 s) else None
  | EmptyString => None
  end.

End CString.

Import CInt CString.

(** ** The module's globals and the kernel calls it makes *)

(** [enum modes { CORRE, IZQ, DER }] *)
Inductive modes : Type := CORRE | IZQ | DER.

Definition modes_eqb (a b : modes) : bool :=
  match a, b with
  | CORRE, CORRE | IZQ, IZQ | DER, DER => true
  | _, _ => false
  end.

Definition LED1 : Z := 5.
Definition LED2 : Z := 6.
Definition LED3 : Z := 13.
Definition LED4 : Z := 19.

(** Levels of the four output lines, LED1 first. *)
Record leds : Type := Leds { led1 : bool; led2 : bool; led3 : bool; led4 : bool }.

Definition pattern (g : leds) : list bool := [led1 g; led2 g; led3 g; led4 g].

(** [mode] and [blinkPeriod] are the file-scope variables shared with the
    sysfs callbacks; [state] is the [static unsigned char] of [flash]. *)
Record driver : Type := Driver {
  mode : modes;
  blinkPeriod : Z;
  state : Z;
  gpio : leds
}.

Inductive task_state : Type := TASK_RUNNING | TASK_INTERRUPTIBLE.

Inductive event : Type :=
| EvPrintk (msg : string)
| EvShouldStop (answer : bool)
| EvSetCurrentState (ts : task_state)
| EvGpioSet (pin : Z) (value : bool)
| EvMsleep (msecs : Z).

Definition is_gpio_set (e : event) : bool :=
  match e with EvGpioSet _ _ => true | _ => false end.

(** A computation reads and updates the globals and appends to the trace of
    kernel calls. *)
Definition kernel (A : Type) : Type := driver -> A * driver * list event.

Definition ret {A} (a : A) : kernel A := fun d => (a, d, []).

Definition bind {A B} (c : kernel A) (k : A -> kernel B) : kernel B :=
  fun d =>
    let '(a, d1, t1) := c d in
    let '(b, d2, t2) := k a d1 in
    (b, d2, t1 ++ t2).

Declare Scope kernel_scope.
Delimit Scope kernel_scope with kernel.
Notation "x <- c ;; k" := (bind c (fun x => k))
  (at level 61, c at next level, right associativity) : kernel_scope.
Notation "c ;; k" := (bind c (fun _ => k))
  (at level 61, right associativity) : kernel_scope.
Local Open Scope kernel_scope.

Definition result {A} (r : A * driver * list event) : A := fst (fst r).
Definition final {A} (r : A * driver * list event) : driver := snd (fst r).
Definition trace {A} (r : A * driver * list event) : list event := snd r.

Definition emit (e : event) : kernel unit := fun d => (tt, d, [e]).

Definition read_mode : kernel modes := fun d => (mode d, d, []).
Definition read_state : kernel Z := fun d => (state d, d, []).
Definition read_blinkPeriod : kernel Z := fun d => (blinkPeriod d, d, []).

Definition write_mode (m : modes) : kernel unit :=
  fun d => (tt, Driver m (blinkPeriod d) (state d) (gpio d), []).
Definition write_blinkPeriod (p : Z) : kernel unit :=
  fun d => (tt, Driver (mode d) p (state d) (gpio d), []).
Definition write_state (s : Z) : kernel unit :=
  fun d => (tt, Driver (mode d) (blinkPeriod d) s (gpio d), []).

Definition set_line (pin : Z) (v : bool) (g : leds) : leds :=
  if pin =? LED1 then Leds v (led2 g) (led3 g) (led4 g)
  else if pin =? LED2 then Leds (led1 g) v (led3 g) (led4 g)
  else if pin =? LED3 then Leds (led1 g) (led2 g) v (led4 g)
  else if pin =? LED4 then Leds (led1 g) (led2 g) (led3 g) v
  else g.

Definition gpio_set_value (pin : Z) (v : bool) : kernel unit :=
  fun d => (tt, Driver (mode d) (blinkPeriod d) (state d) (set_line pin v (gpio d)),
            [EvGpioSet pin v]).

Definition msleep (msecs : Z) : kernel unit := emit (EvMsleep msecs).
Definition printk (msg : string) : kernel unit := emit (EvPrintk msg).
Definition set_current_state (ts : task_state) : kernel unit := emit (EvSetCurrentState ts).

(** [kthread_should_stop()] reports whether [kthread_stop] has been called;
    the answer comes from the environment. *)
Definition kthread_should_stop (answer : bool) : kernel bool :=
  fun d => (answer, d, [EvShouldStop answer]).

(** ** The sysfs store callbacks and the flasher thread *)

Section Driver.

(** Width in bits of [size_t] and [ssize_t] on the kernel the module is
    built for. *)
Variable BITS_PER_LONG : Z.

(** [mode_store]: the first [count-1] bytes of the request are compared
    with the three literals in turn; the return value is [count]. *)
Definition mode_store (buf : string) (count : Z) : kernel Z :=
  let n := to_size_t BITS_PER_LONG (count - 1) in
  (if strncmp buf "izq" n =? 0 then write_mode IZQ
   else if strncmp buf "corre" n =? 0 then write_mode CORRE
   else if strncmp buf "der" n =? 0 then write_mode DER
   else ret tt) ;;
  ret (to_ssize_t BITS_PER_LONG count).

(** [period_store]: [uninit] is whatever the local [period] holds before
    [sscanf] runs; it is what the range test sees when nothing converts. *)
Definition period_store (buf : string) (count : Z) (uninit : Z) : kernel Z :=
  let period :=
    match sscanf_d buf with
    | Some v => to_uint v
    | None => to_uint uninit
    end in
  (if (1 <? period) && (period <=? 10000) then write_blinkPeriod period
   else ret tt) ;;
  ret (to_ssize_t BITS_PER_LONG period).

(** The four [gpio_set_value] calls that every [case] of [flash] makes,
    in source order LED1, LED2, LED3, LED4. *)
Definition set_leds (v1 v2 v3 v4 : bool) : kernel unit :=
  gpio_set_value LED1 v1 ;; gpio_set_value LED2 v2 ;;
  gpio_set_value LED3 v3 ;; gpio_set_value LED4 v4.

(** The [if (mode==DER) ... else if (mode==IZQ) ... else ...] of the loop
    body, each branch a [switch (state)]. *)
Definition sequence_step : kernel unit :=
  m <- read_mode ;;
  if modes_eqb m DER then
    s <- read_state ;;
    match s with
    | 0 => set_leds true false false false ;; write_state 1
    | 1 => set_leds false true false false ;; write_state 2
    | 2 => set_leds false false true false ;; write_state 3
    | 3 => set_leds false false false true ;; write_state 0
    | _ => write_state 0
    end
  else
    m' <- read_mode ;;
    if modes_eqb m' IZQ then
      s <- read_state ;;
      match s with
      | 0 => set_leds false false false true ;; write_state 1
      | 1 => set_leds false false true false ;; write_state 2
      | 2 => set_leds false true false false ;; write_state 3
      | 3 => set_leds true false false false ;; write_state 0
      | _ => write_state 0
      end
    else
      s <- read_state ;;
      match s with
      | 0 => set_leds false false false true ;; write_state 1
      | 1 => set_leds false false true false ;; write_state 2
      | 2 => set_leds false true false false ;; write_state 3
      | 3 => set_leds true false false false ;; write_state 4
      | 4 => set_leds false true false false ;; write_state 5
      | 5 => set_leds false false true false ;; write_state 0
      | _ => write_state 0
      end.

(** A request arriving through sysfs while the thread runs: the callback
    receives the bytes written and their number. *)
Inductive sysfs_write : Type :=
| WriteMode (buf : string)
| WritePeriod (buf : string) (uninit : Z).

Definition sysfs_store (w : sysfs_write) : kernel Z :=
  match w with
  | WriteMode buf => mode_store buf (nbytes buf)
  | WritePeriod buf uninit => period_store buf (nbytes buf) uninit
  end.

Fixpoint sysfs_stores (ws : list sysfs_write) : kernel unit :=
  match ws with
  | [] => ret tt
  | w :: ws' => sysfs_store w ;; sysfs_stores ws'
  end.

(** What the rest of the system does around one pass of the loop: the
    stores that land before the stop flag is polled, the flag's value, and
    the stores that land before [blinkPeriod] is read for the sleep. *)
Record env_tick : Type := EnvTick {
  before_poll : list sysfs_write;
  should_stop : bool;
  before_sleep : list sysfs_write
}.

(** One pass of the body of [while(!kthread_should_stop())]. *)
Definition flash_body (e : env_tick) : kernel unit :=
  set_current_state TASK_RUNNING ;;
  sequence_step ;;
  set_current_state TASK_INTERRUPTIBLE ;;
  sysfs_stores (before_sleep e) ;;
  p <- read_blinkPeriod ;;
  msleep (p / 2).

(** The loop, driven by the environment's schedule.  [true] when the loop
    was left, [false] when the schedule ends with the thread still in it. *)
Fixpoint flash_loop (env : list env_tick) : kernel bool :=
  match env with
  | [] => ret false
  | e :: env' =>
      sysfs_stores (before_poll e) ;;
      stop <- kthread_should_stop (should_stop e) ;;
      if stop then ret true
      else flash_body e ;; flash_loop env'
  end.

Definition MSG_STARTED : string := line "ERPi LED: Thread has started running ".
Definition MSG_COMPLETED : string := line "ERPi LED: Thread has run to completion ".

(** [flash]: [Some 0] is the thread function's return value. *)
Definition flash (env : list env_tick) : kernel (option Z) :=
  printk MSG_STARTED ;;
  left <- flash_loop env ;;
  if left then printk MSG_COMPLETED ;; ret (Some 0)
  else ret None.

End Driver.

(** ** Vocabulary for the statements *)

(** Number of [case] labels of the [switch] that [flash] runs in each mode:
    the valid values of [state] are [0 .. seq_len m - 1]. *)
Definition seq_len (m : modes) : Z :=
  match m with
  | DER => 4
  | IZQ => 4
  | CORRE => 6
  end.

Definition in_range (d : driver) : Prop := 0 <= state d < seq_len (mode d).

(** How many of the four lines are driven high. *)
Definition active (g : leds) : nat := List.length (filter (fun b : bool => b) (pattern g)).

(** What an observer of the sequencer sees between two steps. *)
Definition observe (d : driver) : list bool * Z := (pattern (gpio d), state d).

(** [n] consecutive sequencing steps. *)
Fixpoint steps (n : nat) (d : driver) : driver :=
  match n with
  | O => d
  | S n' => steps n' (final (sequence_step d))
  end.

(** A monitor for the trace of [flash]: output writes and sleeps may only
    occur inside a tick, a tick is only entered by a poll of the stop flag
    that answered [false], and nothing but the final log line follows a poll
    that answered [true]. *)
Inductive phase : Type := AwaitPoll | InTick | Stopped.

Definition monitor_step (ph : phase) (e : event) : option phase :=
  match ph, e with
  | AwaitPoll, EvPrintk _ => Some AwaitPoll
  | AwaitPoll, EvShouldStop false => Some InTick
  | AwaitPoll, EvShouldStop true => Some Stopped
  | InTick, EvSetCurrentState _ => Some InTick
  | InTick, EvGpioSet _ _ => Some InTick
  | InTick, EvMsleep _ => Some AwaitPoll
  | Stopped, EvPrintk _ => Some Stopped
  | _, _ => None
  end.

Fixpoint monitor (ph : phase) (tr : list event) : option phase :=
  match tr with
  | [] => Some ph
  | e :: tr' =>
      match monitor_step ph e with
      | Some ph' => monitor ph' tr'
      | None => None
      end
  end.

(** The part of a trace that follows the first poll answering [true]. *)
Fixpoint after_stop (tr : list event) : list event :=
  match tr with
  | [] => []
  | EvShouldStop true :: tr' => tr'
  | _ :: tr' => after_stop tr'
  end.

(** The schedule up to and including the first pass that sees the flag. *)
Fixpoint upto_stop (env : list env_tick) : list env_tick :=
  match env with
  | [] => []
  | e :: env' => if should_stop e then [e] else e :: upto_stop env'
  end.

(** The value the range test of [period_store] looks at. *)
Definition scanned_period (buf : string) (uninit : Z) : Z :=
  match sscanf_d buf with
  | Some v => to_uint v
  | None => to_uint uninit
  end.

Definition is_stop_seen (e : event) : bool :=
  match e with EvShouldStop true => true | _ => false end.

Definition tick_event (e : event) : bool :=
  match e with
  | EvSetCurrentState _ | EvGpioSet _ _ => true
  | _ => false
  end.

(** ** The sysfs show callbacks *)

Module CFormat.

(** An [unsigned int] handed to a [%d] conversion is read back as an [int]. *)
Definition to_int (v : Z) : Z :=
  let u := v mod 2 ^ 32 in
  if u <? 2 ^ 31 then u else u - 2 ^ 32.

Definition digit_char (n : Z) : ascii := ascii_of_N (Z.to_N (48 + n)).

(** Decimal digits of [v], least significant produced first and pushed in
    front of [acc]; [fuel] bounds the number of digits. *)
Fixpoint put_dec (fuel : nat) (v : Z) (acc : string) : string :=
  match fuel with
  | O => acc
  | S fuel' =>
      let acc' := String (digit_char (v mod 10)) acc in
      if v / 10 =? 0 then acc' else put_dec fuel' (v / 10) acc'
  end.

(** A magnitude below [2 ^ 32] has at most ten digits. *)
Definition decimal (v : Z) : string := put_dec 32 v EmptyString.

(** The [%d] conversion of the kernel's [sprintf]. *)
Definition sprintf_d (v : Z) : string :=
  if v <? 0 then String "-"%char (decimal (- v)) else decimal v.

End CFormat.

Import CFormat.

(** [mode_show]: the text put in [buf] and the returned character count.
    [mode] only ever holds one of the three enumerators, so the [default:]
    label of the source is not reachable. *)
Definition mode_show : kernel (string * Z) :=
  m <- read_mode ;;
  let text :=
    match m with
    | CORRE => line "corre"
    | IZQ => line "izq"
    | DER => line "der"
    end in
  ret (text, nbytes text).

(** [period_show]: [sprintf(buf, "%d\n", blinkPeriod)]. *)
Definition period_show : kernel (string * Z) :=
  p <- read_blinkPeriod ;;
  let text := line (sprintf_d (to_int p)) in
  ret (text, nbytes text).

(** ** More vocabulary *)

Fixpoint no_nul (s : string) : bool :=
  match s with
  | EmptyString => true
  | String c s' => negb (code c =? 0) && no_nul s'
  end.

(** The mode a request body [r] stands for when bodies are matched as
    prefixes of the literals, tried in the order of [mode_store]. *)
Definition prefix_selection (r : string) (current : modes) : modes :=
  if prefix r "izq" then IZQ
  else if prefix r "corre" then CORRE
  else if prefix r "der" then DER
  else current.

Fixpoint all_digits (s : string) : bool :=
  match s with
  | EmptyString => true
  | String c s' => isdigit c && all_digits s'
  end.

(** The pin an output write goes to. *)
Definition pin_written (e : event) : list Z :=
  match e with EvGpioSet p _ => [p] | _ => [] end.

Definition valid_period (d : driver) : Prop := 1 < blinkPeriod d <= 10000.

(** A sleep request of between 1 and 5000 ms; other calls pass. *)
Definition sleep_ok (e : event) : bool :=
  match e with
  | EvMsleep ms => (1 <=? ms) && (ms <=? 5000)
  | _ => true
  end.

(** ** Loading and unloading the module *)

Module Lifecycle.

(** What [kthread_run] hands back: a task, or an [ERR_PTR]. *)
Inductive task_ptr : Type :=
| TaskUnset
| Task (id : Z)
| TaskErr (errno : Z).

Definition IS_ERR (t : task_ptr) : bool :=
  match t with TaskErr _ => true | _ => false end.

Definition PTR_ERR (t : task_ptr) : Z :=
  match t with TaskErr e => e | _ => 0 end.

Definition ENOMEM : Z := 12.

(** [sizeof ledName] *)
Definition LEDNAME_SIZE : Z := 7.

(** The file-scope variables [erpi_LED_init] and [erpi_LED_exit] use, next to
    those of the sequencer. *)
Record lkm : Type := Lkm {
  gpioLED : Z;
  ledName : string;
  ledOn : bool;
  erpi_kobj : bool;
  task : task_ptr;
  drv : driver
}.

Definition with_ledName (n : string) (s : lkm) : lkm :=
  Lkm (gpioLED s) n (ledOn s) (erpi_kobj s) (task s) (drv s).
Definition with_ledOn (b : bool) (s : lkm) : lkm :=
  Lkm (gpioLED s) (ledName s) b (erpi_kobj s) (task s) (drv s).
Definition with_kobj (b : bool) (s : lkm) : lkm :=
  Lkm (gpioLED s) (ledName s) (ledOn s) b (task s) (drv s).
Definition with_task (t : task_ptr) (s : lkm) : lkm :=
  Lkm (gpioLED s) (ledName s) (ledOn s) (erpi_kobj s) t (drv s).
Definition with_drv (d : driver) (s : lkm) : lkm :=
  Lkm (gpioLED s) (ledName s) (ledOn s) (erpi_kobj s) (task s) d.

(** Kernel calls of the two functions. *)
Inductive kcall : Type :=
| KPrintk (msg : string)
| KobjectCreateAndAdd (name : string)
| SysfsCreateGroup (group : string)
| KobjectPut
| GpioRequest (pin : Z) (label : string)
| GpioDirectionOutput (pin : Z) (value : bool)
| GpioExport (pin : Z) (direction_may_change : bool)
| KthreadRun (name : string)
| KthreadStop
| GpioSetValue (pin : Z) (value : bool)
| GpioUnexport (pin : Z)
| GpioFree (pin : Z).

(** What the kernel answers while the module loads. *)
Record load_env : Type := LoadEnv {
  kobject_created : bool;
  group_status : Z;
  thread : task_ptr
}.

Definition load (A : Type) : Type := lkm -> A * lkm * list kcall.

Definition lret {A} (a : A) : load A := fun s => (a, s, []).

Definition lbind {A B} (c : load A) (k : A -> load B) : load B :=
  fun s =>
    let '(a, s1, t1) := c s in
    let '(b, s2, t2) := k a s1 in
    (b, s2, t1 ++ t2).

Declare Scope lkm_scope.
Delimit Scope lkm_scope with lkm.
Notation "x <- c ;; k" := (lbind c (fun x => k))
  (at level 61, c at next level, right associativity) : lkm_scope.
Notation "c ;; k" := (lbind c (fun _ => k))
  (at level 61, right associativity) : lkm_scope.
Local Open Scope lkm_scope.

Definition status {A} (r : A * lkm * list kcall) : A := fst (fst r).
Definition after {A} (r : A * lkm * list kcall) : lkm := snd (fst r).
Definition calls {A} (r : A * lkm * list kcall) : list kcall := snd r.

Definition call (c : kcall) : load unit := fun s => (tt, s, [c]).
Definition read {A} (f : lkm -> A) : load A := fun s => (f s, s, []).
Definition update (f : lkm -> lkm) : load unit := fun s => (tt, f s, []).

Definition kobject_create_and_add (env : load_env) (name : string) : load bool :=
  call (KobjectCreateAndAdd name) ;;
  update (with_kobj (kobject_created env)) ;;
  lret (kobject_created env).

Definition sysfs_create_group (env : load_env) : load Z :=
  name <- read ledName ;;
  call (SysfsCreateGroup name) ;;
  lret (to_int (group_status env)).

Definition drive_line (pin : Z) (v : bool) (s : lkm) : lkm :=
  with_drv (Driver (mode (drv s)) (blinkPeriod (drv s)) (state (drv s))
                   (set_line pin v (gpio (drv s)))) s.

(** [gpio_direction_output] makes the line an output and drives it. *)
Definition gpio_direction_output (pin : Z) (v : bool) : load unit :=
  call (GpioDirectionOutput pin v) ;; update (drive_line pin v).

Definition lkm_gpio_set_value (pin : Z) (v : bool) : load unit :=
  call (GpioSetValue pin v) ;; update (drive_line pin v).

Definition kthread_run (env : load_env) (name : string) : load task_ptr :=
  call (KthreadRun name) ;;
  update (with_task (thread env)) ;;
  lret (thread env).

Definition MSG_INIT : string := line "ERPi LED: Initializing the ERPi LED LKM".
Definition MSG_NO_KOBJECT : string := line "ERPi LED: failed to create kobject".
Definition MSG_NO_GROUP : string := line "ERPi LED: failed to create sysfs group".
Definition MSG_NO_TASK : string := line "ERPi LED: failed to create the task".
Definition MSG_GOODBYE : string := line "ERPi LED: Goodbye from the ERPi LED LKM!".

(** [erpi_LED_init].  [ledName] receives the whole text [sprintf] writes;
    the array behind it has [LEDNAME_SIZE] bytes, and what a longer text
    overwrites beyond them is not described here: for the other globals the
    definition speaks for the C function when the text fits, that is for
    [gpioLED] up to 999. *)
Definition erpi_LED_init (env : load_env) : load Z :=
  call (KPrintk MSG_INIT) ;;
  g <- read gpioLED ;;
  update (with_ledName ("led" ++ sprintf_d (to_int g))) ;;
  created <- kobject_create_and_add env "erpi" ;;
  if negb created then
    call (KPrintk MSG_NO_KOBJECT) ;; lret (- ENOMEM)
  else
    result <- sysfs_create_group env ;;
    if negb (result =? 0) then
      call (KPrintk MSG_NO_GROUP) ;; call KobjectPut ;; lret result
    else
      update (with_ledOn true) ;;
      call (GpioRequest LED1 "sysfs") ;;
      call (GpioRequest LED2 "sysfs") ;;
      call (GpioRequest LED3 "sysfs") ;;
      call (GpioRequest LED4 "sysfs") ;;
      on1 <- read ledOn ;; gpio_direction_output LED1 on1 ;;
      on2 <- read ledOn ;; gpio_direction_output LED2 on2 ;;
      on3 <- read ledOn ;; gpio_direction_output LED3 on3 ;;
      on4 <- read ledOn ;; gpio_direction_output LED4 on4 ;;
      call (GpioExport LED1 false) ;;
      call (GpioExport LED2 false) ;;
      call (GpioExport LED3 false) ;;
      call (GpioExport LED4 false) ;;
      t <- kthread_run env "LED_flash_thread" ;;
      if IS_ERR t then
        call (KPrintk MSG_NO_TASK) ;; lret (to_int (PTR_ERR t))
      else lret result.

(** [erpi_LED_exit] *)
Definition erpi_LED_exit : load unit :=
  call KthreadStop ;;
  call KobjectPut ;;
  g <- read gpioLED ;;
  lkm_gpio_set_value g false ;;
  call (GpioUnexport g) ;;
  call (GpioUnexport LED1) ;;
  call (GpioUnexport LED2) ;;
  call (GpioUnexport LED3) ;;
  call (GpioUnexport LED4) ;;
  call (GpioFree g) ;;
  call (GpioFree LED1) ;;
  call (GpioFree LED2) ;;
  call (GpioFree LED3) ;;
  call (GpioFree LED4) ;;
  call (KPrintk MSG_GOODBYE).

(** Pins a run of calls requests, exports, unexports, frees and drives. *)
Definition requested (c : kcall) : list Z :=
  match c with GpioRequest p _ => [p] | _ => [] end.
Definition exported (c : kcall) : list Z :=
  match c with GpioExport p _ => [p] | _ => [] end.

Definition touches_hardware (c : kcall) : bool :=
  match c with
  | GpioRequest _ _ | GpioDirectionOutput _ _ | GpioExport _ _
  | GpioSetValue _ _ | KthreadRun _ => true
  | _ => false
  end.

Definition is_kobject_put (c : kcall) : bool :=
  match c with KobjectPut => true | _ => false end.

Definition releases (c : kcall) : bool :=
  match c with
  | KobjectPut | GpioUnexport _ | GpioFree _ | KthreadStop => true
  | _ => false
  end.

Definition observe_controls (d : driver) : modes * Z * Z :=
  (mode d, blinkPeriod d, state d).

Definition is_led_pin (p : Z) : bool :=
  (p =? LED1) || (p =? LED2) || (p =? LED3) || (p =? LED4).

End Lifecycle.

(** ** Machine integer facts *)

Lemma to_ssize_t_small bits v :
  0 <= v < 2 ^ (bits - 1) -> to_ssize_t bits v = v.
Proof.
  intros [Hlo Hhi]. unfold to_ssize_t.
  assert (Hb : 0 < bits).
  { destruct (Z_lt_le_dec 0 bits) as [|Hle]; [assumption|].
    rewrite (Z.pow_neg_r 2 (bits - 1)) in Hhi by lia. lia. }
  assert (Hpow : 2 ^ bits = 2 * 2 ^ (bits - 1)).
  { replace bits with (Z.succ (bits - 1)) at 1 by lia.
    rewrite Z.pow_succ_r by lia. reflexivity. }
  rewrite Z.mod_small by lia.
  destruct (Z.ltb_spec v (2 ^ (bits - 1))); lia.
Qed.

(** ** The sequencing step *)

(** Splits a [switch] scrutinee into the literal values its labels name. *)
Ltac switch_cases s :=
  destruct s as [|[[[?|?|]|[?|?|]|]|[[?|?|]|[?|?|]|]|]|?].

Lemma in_range_cases m s :
  0 <= s < seq_len m ->
  s = 0 \/ s = 1 \/ s = 2 \/ s = 3 \/ (seq_len m = 6 /\ (s = 4 \/ s = 5)).
Proof. destruct m; simpl; intros H; lia. Qed.

(** The [default:] label: no line is written, only [state] is reset. *)
Lemma sequence_step_default m p s g :
  ~ (0 <= s < seq_len m) ->
  sequence_step (Driver m p s g) = (tt, Driver m p 0 g, []).
Proof.
  intros Hout.
  destruct m; simpl in Hout; switch_cases s; try reflexivity; exfalso; lia.
Qed.

Lemma sequence_step_keeps_controls d :
  mode (final (sequence_step d)) = mode d /\
  blinkPeriod (final (sequence_step d)) = blinkPeriod d.
Proof.
  destruct d as [m p s g].
  destruct m; switch_cases s; split; reflexivity.
Qed.

Lemma sequence_step_trace_gpio d :
  forallb is_gpio_set (trace (sequence_step d)) = true.
Proof.
  destruct d as [m p s g].
  destruct m; switch_cases s; reflexivity.
Qed.

(** C3.  From a valid index (0..3 in the sweep modes DER and IZQ, 0..5 in the
    shuffle mode CORRE) one sequencing step leaves exactly one of the four
    lines high, and the index it stores is again valid for that mode. *)
Theorem sequence_step_single_active (d : driver) (Hd : in_range d) :
  active (gpio (final (sequence_step d))) = 1%nat /\
  in_range (final (sequence_step d)).
Proof.
  destruct d as [m p s g]. unfold in_range in *. simpl in Hd.
  destruct (in_range_cases m s Hd) as [->|[->|[->|[->|[Hm [->| ->]]]]]];
    destruct m; simpl in *; try lia;
    (split; [reflexivity | cbn; lia]).
Qed.

Lemma sequence_step_single_active_witness :
  in_range (Driver CORRE 1000 5 (Leds true true true true)) /\
  active (gpio (final (sequence_step (Driver CORRE 1000 5 (Leds true true true true))))) = 1%nat /\
  in_range (final (sequence_step (Driver CORRE 1000 5 (Leds true true true true)))).
Proof.
  assert (H : in_range (Driver CORRE 1000 5 (Leds true true true true))).
  { unfold in_range; simpl; lia. }
  split; [exact H | exact (sequence_step_single_active _ H)].
Defined.

(** C2, as the code has it.  One step taken with [state] at or beyond the
    length of the current mode's sequence writes no line: the four outputs
    keep their levels and the stored index is 0 (not 1). *)
Theorem sequence_step_out_of_range_resets (d : driver)
    (Hout : seq_len (mode d) <= state d) :
  pattern (gpio (final (sequence_step d))) = pattern (gpio d) /\
  state (final (sequence_step d)) = 0.
Proof.
  destruct d as [m p s g]. simpl in Hout.
  rewrite sequence_step_default by lia. split; reflexivity.
Qed.

Lemma sequence_step_out_of_range_resets_witness :
  seq_len (mode (Driver DER 1000 5 (Leds false false true false)))
    <= state (Driver DER 1000 5 (Leds false false true false)) /\
  pattern (gpio (final (sequence_step (Driver DER 1000 5 (Leds false false true false)))))
    = [false; false; true; false] /\
  state (final (sequence_step (Driver DER 1000 5 (Leds false false true false)))) = 0.
Proof.
  assert (H : seq_len (mode (Driver DER 1000 5 (Leds false false true false)))
              <= state (Driver DER 1000 5 (Leds false false true false))).
  { simpl; lia. }
  split; [exact H | exact (sequence_step_out_of_range_resets _ H)].
Defined.

(** C2, as the specification words it, fails: in mode DER with [state = 5]
    (left behind by the six-step mode) the step neither shows the pattern of
    index 0 nor stores 1. *)
Lemma sequence_step_out_of_range_counterexample :
  let d := Driver DER 1000 5 (Leds false false true false) in
  let d0 := Driver DER 1000 0 (Leds false false true false) in
  seq_len (mode d) <= state d /\
  ~ (pattern (gpio (final (sequence_step d))) = pattern (gpio (final (sequence_step d0))) /\
     state (final (sequence_step d)) = 1).
Proof.
  cbv zeta. split.
  - simpl; lia.
  - intros [Hpat Hst]. vm_compute in Hst. discriminate Hst.
Qed.

(** C9.  The step is a total function of the globals.  Whenever [state] is
    not a valid index for the current mode (any other value an unsigned
    char can hold), it makes no [gpio_set_value] call at all, leaves the four
    lines and both controls as they were, and stores 0, so that the step
    after it is the step of index 0. *)
Theorem sequence_step_invalid_index (d : driver) (Hout : ~ in_range d) :
  sequence_step d = (tt, Driver (mode d) (blinkPeriod d) 0 (gpio d), []) /\
  sequence_step (final (sequence_step d))
    = sequence_step (Driver (mode d) (blinkPeriod d) 0 (gpio d)).
Proof.
  destruct d as [m p s g]. unfold in_range in Hout. simpl in Hout.
  rewrite sequence_step_default by exact Hout. split; reflexivity.
Qed.

Lemma sequence_step_invalid_index_witness :
  ~ in_range (Driver IZQ 250 255 (Leds true false false false)) /\
  sequence_step (Driver IZQ 250 255 (Leds true false false false))
    = (tt, Driver IZQ 250 0 (Leds true false false false), []).
Proof.
  assert (H : ~ in_range (Driver IZQ 250 255 (Leds true false false false))).
  { unfold in_range; simpl; lia. }
  split; [exact H | exact (proj1 (sequence_step_invalid_index _ H))].
Defined.

(** C5.  In every mode, from a valid index, the (pattern, index) pair that a
    step produces is produced again after exactly [seq_len] further steps
    (4 in DER and IZQ, 6 in CORRE), and the index itself is back where it
    started; a step from the last index stores 0, any other step stores the
    successor. *)
Theorem sequence_step_cycle (d : driver) (Hd : in_range d) :
  let n := Z.to_nat (seq_len (mode d)) in
  let d1 := final (sequence_step d) in
  observe (steps n d1) = observe d1 /\
  state (steps n d) = state d /\
  state d1 = (if state d =? seq_len (mode d) - 1 then 0 else state d + 1).
Proof.
  destruct d as [m p s g]. unfold in_range in Hd. simpl in Hd.
  destruct (in_range_cases m s Hd) as [->|[->|[->|[->|[Hm [->| ->]]]]]];
    destruct m; simpl in *; try lia;
    (split; [reflexivity | split; reflexivity]).
Qed.

Lemma sequence_step_cycle_witness :
  in_range (Driver CORRE 1000 4 (Leds true false false false)) /\
  observe (steps 6 (final (sequence_step (Driver CORRE 1000 4 (Leds true false false false)))))
    = ([false; true; false; false], 5) /\
  state (steps 6 (Driver CORRE 1000 4 (Leds true false false false))) = 4.
Proof.
  assert (H : in_range (Driver CORRE 1000 4 (Leds true false false false))).
  { unfold in_range; simpl; lia. }
  pose proof (sequence_step_cycle _ H) as [Hobs [Hst _]].
  split; [exact H | split; [exact Hobs | exact Hst]].
Defined.

(** C6.  In mode DER, starting with [state = 0], the first five steps show
    1000, 0100, 0010, 0001 and then 1000 again, whatever the lines held
    before. *)
Theorem sweep_right_order (p : Z) (g : leds) :
  map (fun n => pattern (gpio (steps n (Driver DER p 0 g)))) [1; 2; 3; 4; 5]%nat
  = [ [true; false; false; false];
      [false; true; false; false];
      [false; false; true; false];
      [false; false; false; true];
      [true; false; false; false] ].
Proof. reflexivity. Qed.

(** ** Running computations *)

Lemma bind_run {A B} (c : kernel A) (k : A -> kernel B) (d : driver) :
  bind c k d =
  (result (k (result (c d)) (final (c d))),
   final (k (result (c d)) (final (c d))),
   trace (c d) ++ trace (k (result (c d)) (final (c d)))).
Proof.
  unfold bind, result, final, trace.
  destruct (c d) as [[a d1] t1]. simpl.
  destruct (k a d1) as [[b d2] t2]. reflexivity.
Qed.

Lemma final_triple {A} (a : A) (d : driver) (t : list event) : final (a, d, t) = d.
Proof. reflexivity. Qed.

Lemma trace_triple {A} (a : A) (d : driver) (t : list event) : trace (a, d, t) = t.
Proof. reflexivity. Qed.

Lemma result_triple {A} (a : A) (d : driver) (t : list event) : result (a, d, t) = a.
Proof. reflexivity. Qed.

(** ** The mode attribute *)

Lemma mode_store_result bits buf count d :
  result (mode_store bits buf count d) = to_ssize_t bits count.
Proof.
  unfold mode_store. rewrite bind_run. reflexivity.
Qed.

(** The mode after a store is decided by the three [strncmp] calls alone. *)
Lemma mode_store_final bits buf count d :
  final (mode_store bits buf count d) =
  let n := to_size_t bits (count - 1) in
  Driver (if strncmp buf "izq" n =? 0 then IZQ
          else if strncmp buf "corre" n =? 0 then CORRE
          else if strncmp buf "der" n =? 0 then DER
          else mode d)
         (blinkPeriod d) (state d) (gpio d).
Proof.
  unfold mode_store. rewrite bind_run. cbv zeta.
  destruct d as [m p s g].
  destruct (strncmp buf "izq" _ =? 0); [reflexivity|].
  destruct (strncmp buf "corre" _ =? 0); [reflexivity|].
  destruct (strncmp buf "der" _ =? 0); reflexivity.
Qed.

(** The three literals written in full select their mode, and a token that
    differs from all of them within its own length is ignored. *)
Lemma mode_store_full_tokens (m : modes) (p s : Z) (g : leds) :
  mode (final (sysfs_store 64 (WriteMode (line "izq")) (Driver m p s g))) = IZQ /\
  mode (final (sysfs_store 64 (WriteMode (line "corre")) (Driver m p s g))) = CORRE /\
  mode (final (sysfs_store 64 (WriteMode (line "der")) (Driver m p s g))) = DER /\
  mode (final (sysfs_store 64 (WriteMode (line "bogus")) (Driver m p s g))) = m /\
  mode (final (sysfs_store 64 (WriteMode (line "DER")) (Driver m p s g))) = m.
Proof. repeat split; reflexivity. Qed.

(** C1, evaluated on the code.  The comparison runs over the first
    [count-1] bytes of the request only, so a request that is a proper prefix
    of a literal is taken for that literal, and the empty request (a lone
    newline, zero bytes compared) is taken for ["izq"]: the mode changes
    although no recognised token was written. *)
Theorem mode_store_prefix_requests (p s : Z) (g : leds) :
  mode (final (sysfs_store 64 (WriteMode (line EmptyString)) (Driver DER p s g))) = IZQ /\
  mode (final (sysfs_store 64 (WriteMode (line "i")) (Driver DER p s g))) = IZQ /\
  mode (final (sysfs_store 64 (WriteMode (line "c")) (Driver DER p s g))) = CORRE /\
  mode (final (sysfs_store 64 (WriteMode (line "de")) (Driver IZQ p s g))) = DER /\
  mode (final (sysfs_store 32 (WriteMode (line EmptyString)) (Driver DER p s g))) = IZQ /\
  mode (final (sysfs_store 32 (WriteMode (line "corr")) (Driver DER p s g))) = CORRE.
Proof. repeat split; reflexivity. Qed.

(** C10.  Whatever the request and whether or not it changed the mode,
    [mode_store] returns [count], the full length of the request, which is
    never negative: the writer is told that everything was consumed. *)
Theorem mode_store_returns_count (bits : Z) (buf : string) (count : Z) (d : driver)
    (Hcount : 0 <= count < 2 ^ (bits - 1)) :
  result (mode_store bits buf count d) = count /\
  0 <= result (mode_store bits buf count d).
Proof.
  rewrite mode_store_result, to_ssize_t_small by exact Hcount.
  split; [reflexivity | lia].
Qed.

Lemma mode_store_returns_count_witness :
  0 <= 6 < 2 ^ (64 - 1) /\
  result (mode_store 64 (line "bogus") 6 (Driver DER 1000 0 (Leds true false false false))) = 6 /\
  mode (final (mode_store 64 (line "bogus") 6 (Driver DER 1000 0 (Leds true false false false)))) = DER.
Proof.
  assert (H : 0 <= 6 < 2 ^ (64 - 1)) by (simpl; lia).
  split; [exact H|].
  split; [exact (proj1 (mode_store_returns_count 64 (line "bogus") 6 _ H)) | reflexivity].
Defined.

(** ** The period attribute *)

Lemma period_store_final bits buf count uninit d :
  final (period_store bits buf count uninit d) =
  let period := scanned_period buf uninit in
  Driver (mode d)
         (if (1 <? period) && (period <=? 10000) then period else blinkPeriod d)
         (state d) (gpio d).
Proof.
  unfold period_store, scanned_period. rewrite bind_run. cbv zeta.
  destruct d as [m p s g].
  destruct ((1 <? _) && (_ <=? 10000)); reflexivity.
Qed.

Lemma to_uint_int_range v :
  - 2 ^ 31 <= v < 2 ^ 31 ->
  (1 <? to_uint v) && (to_uint v <=? 10000) = (1 <? v) && (v <=? 10000) /\
  ((1 <? v) && (v <=? 10000) = true -> to_uint v = v).
Proof.
  intros Hv. unfold to_uint, UINT_BITS.
  destruct (Z_lt_le_dec v 0) as [Hneg|Hpos].
  - assert (Hm : v mod 2 ^ 32 = v + 2 ^ 32).
    { symmetry. apply (Z.mod_unique v (2 ^ 32) (-1)); lia. }
    rewrite Hm. split.
    + destruct (Z.ltb_spec 1 v); [lia|].
      destruct (Z.ltb_spec 1 (v + 2 ^ 32)); [|reflexivity].
      destruct (Z.leb_spec (v + 2 ^ 32) 10000); [lia | reflexivity].
    + destruct (Z.ltb_spec 1 v); [lia | discriminate].
  - rewrite Z.mod_small by lia. split; [reflexivity | reflexivity].
Qed.

(** The part of the range test that works: a request that [sscanf] reads
    as an [int] [v] replaces the period exactly when [1 < v <= 10000] and
    otherwise leaves it as it was; nothing else is touched.  In particular
    0, 1 and 10001 are refused while 2 and 10000 are stored. *)
Theorem period_store_accepts_range (bits : Z) (buf : string) (count uninit v : Z)
    (d : driver)
    (Hscan : sscanf_d buf = Some v)
    (Hint : - 2 ^ 31 <= v < 2 ^ 31) :
  final (period_store bits buf count uninit d)
    = Driver (mode d)
             (if (1 <? v) && (v <=? 10000) then v else blinkPeriod d)
             (state d) (gpio d) /\
  blinkPeriod (final (sysfs_store bits (WritePeriod (line "0") uninit) d)) = blinkPeriod d /\
  blinkPeriod (final (sysfs_store bits (WritePeriod (line "1") uninit) d)) = blinkPeriod d /\
  blinkPeriod (final (sysfs_store bits (WritePeriod (line "10001") uninit) d)) = blinkPeriod d /\
  blinkPeriod (final (sysfs_store bits (WritePeriod (line "2") uninit) d)) = 2 /\
  blinkPeriod (final (sysfs_store bits (WritePeriod (line "10000") uninit) d)) = 10000.
Proof.
  split.
  - rewrite period_store_final. unfold scanned_period. rewrite Hscan. cbv zeta.
    destruct (to_uint_int_range v Hint) as [Htest Hval]. rewrite Htest.
    destruct ((1 <? v) && (v <=? 10000)) eqn:Hacc; [|reflexivity].
    rewrite (Hval eq_refl). reflexivity.
  - unfold sysfs_store. rewrite !period_store_final.
    repeat split; reflexivity.
Qed.

Lemma period_store_accepts_range_witness :
  sscanf_d (line "500") = Some 500 /\
  - 2 ^ 31 <= 500 < 2 ^ 31 /\
  final (period_store 64 (line "500") 4 0 (Driver DER 1000 0 (Leds true false false false)))
    = Driver DER 500 0 (Leds true false false false).
Proof.
  assert (Hs : sscanf_d (line "500") = Some 500) by reflexivity.
  assert (Hi : - 2 ^ 31 <= 500 < 2 ^ 31) by (simpl; lia).
  split; [exact Hs | split; [exact Hi|]].
  exact (proj1 (period_store_accepts_range 64 (line "500") 4 0 500
                  (Driver DER 1000 0 (Leds true false false false)) Hs Hi)).
Defined.

(** C4, evaluated on the code.  The range test does not see the requested
    value but what [%d] leaves in an [unsigned int] local whose conversion
    is never checked.  A request for 4294967298, which is not in 2..10000,
    wraps to 2 and is stored; a request with no number in it is judged by
    the stale content of the local, so with 4000 there the period 1000
    becomes 4000 instead of being retained. *)
Theorem period_store_accepts_unrequested (bits count : Z) (m : modes) (s : Z)
    (g : leds) :
  sscanf_d (line "4294967298") = Some 4294967298 /\
  (forall uninit,
      blinkPeriod (final (period_store bits (line "4294967298") count uninit
                            (Driver m 1000 s g))) = 2) /\
  sscanf_d (line "fast") = None /\
  blinkPeriod (final (period_store bits (line "fast") count 4000
                        (Driver m 1000 s g))) = 4000.
Proof.
  split; [reflexivity | split; [|split; [reflexivity|]]].
  - intros uninit. rewrite period_store_final. reflexivity.
  - rewrite period_store_final. reflexivity.
Qed.

(** ** The flasher thread *)

(** Stores through sysfs make no kernel call of the thread's and touch
    neither the lines nor [state]. *)
Lemma sysfs_store_frame bits w d :
  trace (sysfs_store bits w d) = [] /\
  state (final (sysfs_store bits w d)) = state d /\
  gpio (final (sysfs_store bits w d)) = gpio d.
Proof.
  destruct w as [buf | buf uninit]; unfold sysfs_store.
  - rewrite mode_store_final. split; [|split; reflexivity].
    unfold mode_store. rewrite bind_run. simpl.
    destruct (strncmp buf "izq" _ =? 0); [reflexivity|].
    destruct (strncmp buf "corre" _ =? 0); [reflexivity|].
    destruct (strncmp buf "der" _ =? 0); reflexivity.
  - rewrite period_store_final. split; [|split; reflexivity].
    unfold period_store. rewrite bind_run. simpl.
    destruct ((1 <? _) && (_ <=? 10000)); reflexivity.
Qed.

Lemma sysfs_stores_frame bits ws d :
  trace (sysfs_stores bits ws d) = [] /\
  state (final (sysfs_stores bits ws d)) = state d /\
  gpio (final (sysfs_stores bits ws d)) = gpio d.
Proof.
  revert d. induction ws as [|w ws IH]; intros d.
  - repeat split; reflexivity.
  - cbn [sysfs_stores]. rewrite bind_run, trace_triple, final_triple.
    destruct (sysfs_store_frame bits w d) as [Ht [Hs Hg]].
    destruct (IH (final (sysfs_store bits w d))) as [Ht' [Hs' Hg']].
    rewrite Ht, Ht', Hs', Hg', Hs, Hg. repeat split; reflexivity.
Qed.

(** The calls made by one pass of the loop body, in order. *)
Lemma flash_body_run bits e d :
  let d1 := final (sequence_step d) in
  let d2 := final (sysfs_stores bits (before_sleep e) d1) in
  final (flash_body bits e d) = d2 /\
  trace (flash_body bits e d) =
    EvSetCurrentState TASK_RUNNING ::
    trace (sequence_step d) ++
    [EvSetCurrentState TASK_INTERRUPTIBLE; EvMsleep (blinkPeriod d2 / 2)].
Proof.
  cbv zeta. unfold flash_body.
  rewrite !bind_run, !trace_triple, !final_triple.
  change (final (set_current_state TASK_RUNNING d)) with d.
  change (final (set_current_state TASK_INTERRUPTIBLE ?x)) with x.
  destruct (sysfs_stores_frame bits (before_sleep e) (final (sequence_step d)))
    as [Ht _].
  rewrite Ht. split; reflexivity.
Qed.


Lemma monitor_app ph t1 t2 :
  monitor ph (t1 ++ t2) =
  match monitor ph t1 with
  | Some ph' => monitor ph' t2
  | None => None
  end.
Proof.
  revert ph. induction t1 as [|e t1 IH]; intros ph; simpl.
  - reflexivity.
  - destruct (monitor_step ph e); [apply IH | reflexivity].
Qed.

Lemma monitor_in_tick t :
  forallb tick_event t = true -> monitor InTick t = Some InTick.
Proof.
  induction t as [|e t IH]; simpl; intros H.
  - reflexivity.
  - apply andb_true_iff in H as [He Ht].
    destruct e; try discriminate He; simpl; auto.
Qed.

Lemma after_stop_app t1 t2 :
  existsb is_stop_seen t1 = false -> after_stop (t1 ++ t2) = after_stop t2.
Proof.
  induction t1 as [|e t1 IH]; simpl; intros H.
  - reflexivity.
  - apply orb_false_iff in H as [He Ht].
    destruct e as [| [|] | | |]; try discriminate He; auto.
Qed.

Lemma after_stop_app_cases t1 t2 :
  after_stop (t1 ++ t2) =
  if existsb is_stop_seen t1 then after_stop t1 ++ t2 else after_stop t2.
Proof.
  induction t1 as [|e t1 IH]; simpl.
  - reflexivity.
  - destruct e as [| [|] | | |]; simpl; auto.
Qed.

Lemma gpio_events_are_tick_events t :
  forallb is_gpio_set t = true ->
  forallb tick_event t = true /\ existsb is_stop_seen t = false.
Proof.
  induction t as [|e t IH]; simpl; intros H.
  - split; reflexivity.
  - apply andb_true_iff in H as [He Ht]. destruct (IH Ht) as [H1 H2].
    destruct e; try discriminate He. simpl. split; assumption.
Qed.

(** One pass of the body, seen by the monitor and by [after_stop]. *)
Lemma flash_body_monitored bits e d rest :
  monitor InTick (trace (flash_body bits e d) ++ rest) = monitor AwaitPoll rest /\
  after_stop (trace (flash_body bits e d) ++ rest) = after_stop rest.
Proof.
  destruct (flash_body_run bits e d) as [_ Ht]. rewrite Ht.
  destruct (gpio_events_are_tick_events _ (sequence_step_trace_gpio d)) as [Htick Hns].
  split.
  - cbn [app monitor monitor_step]. rewrite <- app_assoc, monitor_app.
    rewrite (monitor_in_tick _ Htick). reflexivity.
  - cbn [app after_stop]. rewrite <- app_assoc.
    rewrite (after_stop_app _ _ Hns). reflexivity.
Qed.

(** The loop unrolled once. *)
Lemma flash_loop_cons bits e env d :
  flash_loop bits (e :: env) d =
  let d1 := final (sysfs_stores bits (before_poll e) d) in
  if should_stop e then (true, d1, [EvShouldStop true])
  else
    let r := flash_loop bits env (final (flash_body bits e d1)) in
    (result r, final r, EvShouldStop false :: trace (flash_body bits e d1) ++ trace r).
Proof.
  cbv zeta. cbn [flash_loop].
  destruct (sysfs_stores_frame bits (before_poll e) d) as [Hpre _].
  rewrite bind_run, Hpre. cbn [app].
  set (d1 := final (sysfs_stores bits (before_poll e) d)).
  rewrite bind_run.
  change (result (kthread_should_stop (should_stop e) d1)) with (should_stop e).
  change (final (kthread_should_stop (should_stop e) d1)) with d1.
  change (trace (kthread_should_stop (should_stop e) d1))
    with [EvShouldStop (should_stop e)].
  destruct (should_stop e).
  - reflexivity.
  - rewrite bind_run, !result_triple, !final_triple, !trace_triple. reflexivity.
Qed.

Lemma flash_loop_run bits env d :
  let r := flash_loop bits env d in
  result r = existsb should_stop env /\
  monitor AwaitPoll (trace r)
    = Some (if existsb should_stop env then Stopped else AwaitPoll) /\
  after_stop (trace r) = [] /\
  flash_loop bits (upto_stop env) d = r.
Proof.
  cbv zeta. revert d. induction env as [|e env IH]; intros d.
  - repeat split; reflexivity.
  - cbn [upto_stop existsb]. rewrite flash_loop_cons. cbv zeta.
    set (d1 := final (sysfs_stores bits (before_poll e) d)).
    destruct (should_stop e) eqn:Hstop.
    + cbn [orb]. repeat split; try reflexivity.
      rewrite flash_loop_cons, Hstop. reflexivity.
    + cbn [orb]. rewrite result_triple, trace_triple.
      destruct (IH (final (flash_body bits e d1))) as [Hres [Hmon [Hafter Hupto]]].
      destruct (flash_body_monitored bits e d1
                  (trace (flash_loop bits env (final (flash_body bits e d1)))))
        as [Hm Ha].
      repeat split.
      * exact Hres.
      * cbn [monitor monitor_step]. rewrite Hm. exact Hmon.
      * cbn [after_stop]. rewrite Ha. exact Hafter.
      * rewrite flash_loop_cons, Hstop. cbv zeta. fold d1.
        rewrite Hupto. reflexivity.
Qed.

(** C8.  [flash] polls [kthread_should_stop] before every pass: in its
    trace each output write lies inside a pass that a poll answering "go on"
    opened.  Once a poll has answered "stop" the thread only logs and
    returns 0, so no output write follows that poll, and what the environment
    would have done afterwards makes no difference. *)
Theorem flash_stops_without_writes (bits : Z) (env : list env_tick) (d : driver) :
  let r := flash bits env d in
  monitor AwaitPoll (trace r)
    = Some (if existsb should_stop env then Stopped else AwaitPoll) /\
  result r = (if existsb should_stop env then Some 0 else None) /\
  forallb (fun e => negb (is_gpio_set e)) (after_stop (trace r)) = true /\
  flash bits (upto_stop env) d = r.
Proof.
  cbv zeta.
  assert (Hupto : flash bits (upto_stop env) d = flash bits env d).
  { unfold flash. rewrite !bind_run.
    destruct (flash_loop_run bits env (final (printk MSG_STARTED d)))
      as [_ [_ [_ Hu]]].
    rewrite Hu. reflexivity. }
  split; [|split; [|split; [|exact Hupto]]].
  all: unfold flash; rewrite !bind_run, ?result_triple, ?trace_triple;
    change (final (printk MSG_STARTED d)) with d;
    change (trace (printk MSG_STARTED d)) with [EvPrintk MSG_STARTED];
    destruct (flash_loop_run bits env d) as [Hres [Hmon [Hafter _]]];
    rewrite Hres.
  - cbn [app monitor monitor_step]. rewrite monitor_app, Hmon.
    destruct (existsb should_stop env); reflexivity.
  - destruct (existsb should_stop env); reflexivity.
  - cbn [app after_stop]. rewrite after_stop_app_cases, Hafter.
    destruct (existsb should_stop env), (existsb is_stop_seen _); reflexivity.
Qed.

(** ** Invariants of the running sequencer *)

Lemma sequence_step_lands_in_range d : in_range (final (sequence_step d)).
Proof.
  destruct (Z_lt_le_dec (state d) 0) as [Hneg|Hpos];
    [|destruct (Z_lt_le_dec (state d) (seq_len (mode d))) as [Hin|Hout]].
  - destruct d as [m p s g]. simpl in Hneg.
    rewrite sequence_step_default by (simpl; lia).
    unfold in_range; destruct m; simpl; lia.
  - destruct d as [m p s g]. simpl in Hpos, Hin.
    destruct (in_range_cases m s (conj Hpos Hin))
      as [->|[->|[->|[->|[Hm [->| ->]]]]]];
      destruct m; simpl in *; try lia; unfold in_range; cbn; lia.
  - destruct d as [m p s g]. simpl in Hpos, Hout.
    rewrite sequence_step_default by (simpl; lia).
    unfold in_range; destruct m; simpl; lia.
Qed.

Lemma sequence_step_active d :
  in_range d \/ active (gpio d) = 1%nat ->
  active (gpio (final (sequence_step d))) = 1%nat.
Proof.
  destruct d as [m p s g]. unfold in_range. simpl.
  destruct (Z_lt_le_dec s 0) as [Hneg|Hpos];
    [|destruct (Z_lt_le_dec s (seq_len m)) as [Hin|Hout]].
  - intros [H|H]; [lia|]. rewrite sequence_step_default by lia. exact H.
  - intros _.
    destruct (in_range_cases m s (conj Hpos Hin))
      as [->|[->|[->|[->|[Hm [->| ->]]]]]];
      destruct m; simpl in *; try lia; reflexivity.
  - intros [H|H]; [lia|]. rewrite sequence_step_default by lia. exact H.
Qed.

(** Whatever holds of the globals and survives a store and a sequencing
    step also survives any run of the loop. *)
Lemma flash_loop_invariant (I : driver -> Prop) bits
    (Hstore : forall w d, I d -> I (final (sysfs_store bits w d)))
    (Hstep : forall d, I d -> I (final (sequence_step d))) :
  forall env d, I d -> I (final (flash_loop bits env d)).
Proof.
  assert (Hstores : forall ws d, I d -> I (final (sysfs_stores bits ws d))).
  { induction ws as [|w ws IH]; intros d Hd.
    - exact Hd.
    - cbn [sysfs_stores]. rewrite bind_run, final_triple. apply IH, Hstore, Hd. }
  induction env as [|e env IH]; intros d Hd.
  - exact Hd.
  - rewrite flash_loop_cons. cbv zeta.
    destruct (should_stop e).
    + rewrite final_triple. apply Hstores, Hd.
    + rewrite final_triple. apply IH.
      destruct (flash_body_run bits e (final (sysfs_stores bits (before_poll e) d)))
        as [Hf _].
      rewrite Hf. apply Hstores, Hstep, Hstores, Hd.
Qed.

Lemma flash_final bits env d :
  final (flash bits env d) = final (flash_loop bits env d).
Proof.
  unfold flash. rewrite !bind_run, !final_triple.
  change (final (printk MSG_STARTED d)) with d.
  destruct (result (flash_loop bits env d)).
  - rewrite bind_run, final_triple. reflexivity.
  - reflexivity.
Qed.

(** X1.  A sequencing step always leaves [state] a valid index of the mode
    it ran in, whatever [state] was before: an index left invalid by a mode
    change is repaired by the next step. *)
Theorem sequence_step_restores_index (d : driver) :
  0 <= state (final (sequence_step d)) < seq_len (mode d) /\
  in_range (final (sequence_step d)).
Proof.
  pose proof (sequence_step_lands_in_range d) as H.
  split; [|exact H].
  unfold in_range in H.
  destruct (sequence_step_keeps_controls d) as [Hm _].
  rewrite Hm in H. exact H.
Qed.

(** X2.  The step counter of [flash] never leaves 0..5, whatever stores
    arrive through sysfs while the thread runs; in particular the
    [unsigned char] never wraps. *)
Theorem flash_state_bounded (bits : Z) (env : list env_tick) (d : driver)
    (Hd : 0 <= state d <= 5) :
  0 <= state (final (flash bits env d)) <= 5.
Proof.
  rewrite flash_final.
  apply (flash_loop_invariant (fun x => 0 <= state x <= 5)); [| |exact Hd].
  - intros w x Hx. destruct (sysfs_store_frame bits w x) as [_ [Hs _]].
    rewrite Hs. exact Hx.
  - intros x _. pose proof (sequence_step_lands_in_range x) as H.
    unfold in_range in H.
    destruct (mode (final (sequence_step x))); simpl in H; lia.
Qed.

Lemma flash_state_bounded_witness :
  0 <= state (Driver DER 1000 0 (Leds true true true true)) <= 5 /\
  0 <= state (final (flash 64
        [EnvTick [] false []; EnvTick [WriteMode (line "corre")] false []; EnvTick [] true []]
        (Driver DER 1000 0 (Leds true true true true)))) <= 5.
Proof.
  assert (H : 0 <= state (Driver DER 1000 0 (Leds true true true true)) <= 5).
  { simpl; lia. }
  split; [exact H | exact (flash_state_bounded 64 _ _ H)].
Defined.

(** X3.  Once a single line is high, exactly one line is high after every
    run of the loop: a pass either rewrites all four lines with a
    single-high pattern or (on an invalid index) writes none of them, and
    stores through sysfs never touch the lines. *)
Theorem flash_keeps_single_active (bits : Z) (env : list env_tick) (d : driver)
    (Hd : active (gpio d) = 1%nat) :
  active (gpio (final (flash bits env d))) = 1%nat.
Proof.
  rewrite flash_final.
  apply (flash_loop_invariant (fun x => active (gpio x) = 1%nat)); [| |exact Hd].
  - intros w x Hx. destruct (sysfs_store_frame bits w x) as [_ [_ Hg]].
    rewrite Hg. exact Hx.
  - intros x Hx. apply sequence_step_active. right. exact Hx.
Qed.

Lemma flash_keeps_single_active_witness :
  active (gpio (Driver CORRE 1000 5 (Leds false true false false))) = 1%nat /\
  active (gpio (final (flash 64
        [EnvTick [WriteMode (line "der")] false []; EnvTick [] false []]
        (Driver CORRE 1000 5 (Leds false true false false))))) = 1%nat.
Proof.
  assert (H : active (gpio (Driver CORRE 1000 5 (Leds false true false false))) = 1%nat).
  { reflexivity. }
  split; [exact H | exact (flash_keeps_single_active 64 _ _ H)].
Defined.

Lemma flash_first_pass_active bits e env d :
  state d = 0 -> should_stop e = false ->
  active (gpio (final (flash bits (e :: env) d))) = 1%nat.
Proof.
  intros Hstate Hgo.
  rewrite flash_final, flash_loop_cons. cbv zeta. rewrite Hgo, final_triple.
  apply (flash_loop_invariant (fun x => active (gpio x) = 1%nat)).
  - intros w x Hx. destruct (sysfs_store_frame bits w x) as [_ [_ Hg]].
    rewrite Hg. exact Hx.
  - intros x Hx. apply sequence_step_active. right. exact Hx.
  - set (d1 := final (sysfs_stores bits (before_poll e) d)).
    destruct (flash_body_run bits e d1) as [Hf _]. rewrite Hf.
    destruct (sysfs_stores_frame bits (before_sleep e) (final (sequence_step d1)))
      as [_ [_ Hg]].
    rewrite Hg. apply sequence_step_active. left.
    destruct (sysfs_stores_frame bits (before_poll e) d) as [_ [Hs _]].
    unfold in_range. fold d1 in Hs. rewrite Hs, Hstate.
    destruct (mode d1); simpl; lia.
Qed.

(** X4.  A thread that starts with [state = 0] and runs at least one pass
    leaves exactly one line high, however the lines were set up before and
    whatever is written to the attributes meanwhile. *)
Theorem flash_first_pass_single_active (bits : Z) (e : env_tick)
    (env : list env_tick) (d : driver)
    (Hstate : state d = 0) (Hgo : should_stop e = false) :
  active (gpio (final (flash bits (e :: env) d))) = 1%nat.
Proof. exact (flash_first_pass_active bits e env d Hstate Hgo). Qed.

Lemma flash_first_pass_single_active_witness :
  state (Driver DER 1000 0 (Leds true true true true)) = 0 /\
  should_stop (EnvTick [WriteMode (line "izq")] false []) = false /\
  active (gpio (final (flash 64 [EnvTick [WriteMode (line "izq")] false []]
                         (Driver DER 1000 0 (Leds true true true true))))) = 1%nat.
Proof.
  split; [reflexivity | split; [reflexivity|]].
  exact (flash_first_pass_single_active 64 (EnvTick [WriteMode (line "izq")] false []) []
           (Driver DER 1000 0 (Leds true true true true)) eq_refl eq_refl).
Defined.

(** ** The period while the thread runs *)

Lemma sysfs_store_valid_period bits w d :
  valid_period d -> valid_period (final (sysfs_store bits w d)).
Proof.
  unfold valid_period. intros Hd.
  destruct w as [buf | buf uninit]; unfold sysfs_store.
  - rewrite mode_store_final. exact Hd.
  - rewrite period_store_final. cbv zeta. cbn [blinkPeriod].
    destruct ((1 <? scanned_period buf uninit) && (scanned_period buf uninit <=? 10000))
      eqn:Hacc; [|exact Hd].
    apply andb_true_iff in Hacc as [H1 H2].
    apply Z.ltb_lt in H1. apply Z.leb_le in H2. lia.
Qed.

Lemma sysfs_stores_valid_period bits ws d :
  valid_period d -> valid_period (final (sysfs_stores bits ws d)).
Proof.
  revert d. induction ws as [|w ws IH]; intros d Hd.
  - exact Hd.
  - cbn [sysfs_stores]. rewrite bind_run, final_triple.
    apply IH, sysfs_store_valid_period, Hd.
Qed.

Lemma sequence_step_valid_period d :
  valid_period d -> valid_period (final (sequence_step d)).
Proof.
  unfold valid_period. destruct (sequence_step_keeps_controls d) as [_ Hp].
  rewrite Hp. tauto.
Qed.

Lemma half_period_bounds p : 1 < p <= 10000 -> 1 <= p / 2 <= 5000.
Proof.
  intros Hp.
  pose proof (Z.div_mod p 2 ltac:(lia)) as Hdm.
  pose proof (Z.mod_pos_bound p 2 ltac:(lia)) as Hm.
  lia.
Qed.

Lemma gpio_events_sleep_ok t :
  forallb is_gpio_set t = true -> forallb sleep_ok t = true.
Proof.
  induction t as [|e t IH]; simpl; intros H.
  - reflexivity.
  - apply andb_true_iff in H as [He Ht].
    destruct e; try discriminate He. simpl. apply IH, Ht.
Qed.

Lemma flash_loop_sleep_ok bits env d :
  valid_period d ->
  valid_period (final (flash_loop bits env d)) /\
  forallb sleep_ok (trace (flash_loop bits env d)) = true.
Proof.
  revert d. induction env as [|e env IH]; intros d Hd.
  - split; [exact Hd | reflexivity].
  - rewrite flash_loop_cons. cbv zeta.
    set (d1 := final (sysfs_stores bits (before_poll e) d)).
    assert (Hd1 : valid_period d1) by (apply sysfs_stores_valid_period, Hd).
    destruct (should_stop e).
    + split; [exact Hd1 | reflexivity].
    + rewrite final_triple, trace_triple.
      destruct (flash_body_run bits e d1) as [Hf Ht].
      assert (Hd2 : valid_period (final (flash_body bits e d1))).
      { rewrite Hf. apply sysfs_stores_valid_period, sequence_step_valid_period, Hd1. }
      destruct (IH _ Hd2) as [Hfin Hsl].
      split; [exact Hfin|].
      cbn [forallb sleep_ok andb]. rewrite forallb_app, Hsl, Ht.
      cbn [forallb sleep_ok andb]. rewrite forallb_app.
      rewrite (gpio_events_sleep_ok _ (sequence_step_trace_gpio d1)).
      cbn [forallb sleep_ok andb].
      rewrite <- Hf.
      destruct (half_period_bounds _ Hd2) as [Hlo Hhi].
      apply Z.leb_le in Hlo. apply Z.leb_le in Hhi. rewrite Hlo, Hhi. reflexivity.
Qed.

(** X5.  If [blinkPeriod] lies in 2..10000 when the thread starts, it lies
    there after any run of the loop, whatever is written to the attributes
    (numbers out of range, text, nothing at all), and every [msleep] the
    thread requests is for 1 to 5000 ms: the loop never spins without
    sleeping. *)
Theorem flash_period_stays_valid (bits : Z) (env : list env_tick) (d : driver)
    (Hd : valid_period d) :
  valid_period (final (flash bits env d)) /\
  forallb sleep_ok (trace (flash bits env d)) = true.
Proof.
  destruct (flash_loop_sleep_ok bits env d Hd) as [Hfin Hsl].
  split.
  - rewrite flash_final. exact Hfin.
  - unfold flash. rewrite !bind_run, !trace_triple.
    change (final (printk MSG_STARTED d)) with d.
    change (trace (printk MSG_STARTED d)) with [EvPrintk MSG_STARTED].
    cbn [app forallb sleep_ok andb]. rewrite forallb_app, Hsl.
    destruct (result (flash_loop bits env d)); reflexivity.
Qed.

Lemma flash_period_stays_valid_witness :
  valid_period (Driver DER 1000 0 (Leds true true true true)) /\
  valid_period (final (flash 64
      [EnvTick [WritePeriod (line "0") 7] false [WritePeriod (line "abc") 3];
       EnvTick [WritePeriod (line "2") 0] false []]
      (Driver DER 1000 0 (Leds true true true true)))).
Proof.
  assert (H : valid_period (Driver DER 1000 0 (Leds true true true true))).
  { unfold valid_period; simpl; lia. }
  split; [exact H | exact (proj1 (flash_period_stays_valid 64 _ _ H))].
Defined.

(** ** What [mode_store] takes for a token *)

Lemma code_inj c1 c2 : code c1 = code c2 -> c1 = c2.
Proof.
  unfold code. intros H. apply N2Z.inj in H.
  rewrite <- (ascii_N_embedding c1), <- (ascii_N_embedding c2), H. reflexivity.
Qed.

Lemma strncmp_unfold cs ct count :
  strncmp cs ct count =
  if count =? 0 then 0
  else
    let c1 := match cs with String c _ => c | EmptyString => NUL end in
    let c2 := match ct with String c _ => c | EmptyString => NUL end in
    if negb (code c1 =? code c2) then (if code c1 <? code c2 then -1 else 1)
    else if code c1 =? 0 then 0
    else
      match cs with
      | String _ cs' =>
          strncmp cs' (match ct with String _ ct' => ct' | EmptyString => EmptyString end)
                  (count - 1)
      | EmptyString => 0
      end.
Proof. destruct cs; reflexivity. Qed.

(** Bounded by the length of a NUL-free [r], [strncmp] answers 0 exactly
    when [r] is a prefix of the other string. *)
Lemma strncmp_prefix r : forall lit rest,
  no_nul r = true ->
  (strncmp (r ++ rest) lit (Z.of_nat (String.length r)) =? 0) = prefix r lit.
Proof.
  induction r as [|c r IH]; intros lit rest Hnn.
  - rewrite strncmp_unfold. destruct lit; reflexivity.
  - cbn [no_nul] in Hnn. apply andb_true_iff in Hnn as [Hc Hr].
    apply negb_true_iff in Hc.
    rewrite strncmp_unfold.
    cbn [String.length append].
    destruct (Z.eqb_spec (Z.of_nat (S (String.length r))) 0) as [H0|_]; [lia|].
    cbv zeta.
    replace (Z.of_nat (S (String.length r)) - 1) with (Z.of_nat (String.length r)) by lia.
    destruct lit as [|b lit]; cbn [prefix].
    + change (code NUL) with 0. rewrite Hc. cbn [negb].
      destruct (code c <? 0); reflexivity.
    + destruct (Z.eqb_spec (code c) (code b)) as [Heq|Hne]; cbn [negb].
      * apply code_inj in Heq. subst b. rewrite Hc.
        destruct (ascii_dec c c) as [_|Hcc]; [|congruence].
        apply IH, Hr.
      * destruct (ascii_dec c b) as [->|_]; [congruence|].
        destruct (code c <? code b); reflexivity.
Qed.

Lemma length_append (s1 s2 : string) :
  String.length (s1 ++ s2) = (String.length s1 + String.length s2)%nat.
Proof. induction s1 as [|c s1 IH]; simpl; [reflexivity | now rewrite IH]. Qed.

Lemma to_size_t_small bits v : 0 <= v < 2 ^ bits -> to_size_t bits v = v.
Proof. intros H. unfold to_size_t. now apply Z.mod_small. Qed.

(** X6.  What [mode_store] really matches: for a request made of a NUL-free
    body [r] and one final byte (the newline of [echo], or any other byte),
    the mode becomes the first of izq, corre, der that [r] is a prefix of,
    and stays as it is when [r] is a prefix of none; the final byte is never
    looked at and nothing but [mode] changes. *)
Theorem mode_store_matches_prefixes (bits : Z) (r : string) (c : ascii) (d : driver)
    (Hnul : no_nul r = true)
    (Hlen : Z.of_nat (String.length r) < 2 ^ bits) :
  final (sysfs_store bits (WriteMode (r ++ String c EmptyString)) d)
  = Driver (prefix_selection r (mode d)) (blinkPeriod d) (state d) (gpio d).
Proof.
  unfold sysfs_store. rewrite mode_store_final. cbv zeta.
  assert (Hn : nbytes (r ++ String c EmptyString) - 1 = Z.of_nat (String.length r)).
  { unfold nbytes. rewrite length_append. simpl String.length. lia. }
  rewrite Hn, to_size_t_small by lia.
  rewrite !strncmp_prefix by exact Hnul.
  reflexivity.
Qed.

Lemma mode_store_matches_prefixes_witness :
  no_nul "co" = true /\
  Z.of_nat (String.length "co") < 2 ^ 32 /\
  final (sysfs_store 32 (WriteMode (line "co")) (Driver DER 1000 2 (Leds false true false false)))
  = Driver CORRE 1000 2 (Leds false true false false).
Proof.
  assert (H1 : no_nul "co" = true) by reflexivity.
  assert (H2 : Z.of_nat (String.length "co") < 2 ^ 32) by (simpl; lia).
  split; [exact H1 | split; [exact H2|]].
  exact (mode_store_matches_prefixes 32 "co" LF
           (Driver DER 1000 2 (Leds false true false false)) H1 H2).
Defined.

(** ** Reading an attribute and writing it back *)

Lemma pow2_ge_256 bits : 8 <= bits -> 256 <= 2 ^ bits.
Proof.
  intros H. change 256 with (2 ^ 8). apply Z.pow_le_mono_r; lia.
Qed.

(** X7.  The text [mode_show] prints for a mode is a request that
    [mode_store] turns back into that mode, whatever mode is current, and
    the store consumes exactly the characters the show produced. *)
Theorem mode_show_store_round_trip (bits : Z) (d d' : driver) (Hbits : 8 <= bits) :
  let shown := result (mode_show d) in
  mode (final (mode_store bits (fst shown) (snd shown) d')) = mode d /\
  result (mode_store bits (fst shown) (snd shown) d') = snd shown /\
  final (mode_show d) = d.
Proof.
  pose proof (pow2_ge_256 bits Hbits) as Hp.
  assert (Hp' : 256 <= 2 * 2 ^ (bits - 1)).
  { replace (2 * 2 ^ (bits - 1)) with (2 ^ bits); [exact Hp|].
    replace bits with (Z.succ (bits - 1)) at 1 by lia.
    rewrite Z.pow_succ_r by lia. reflexivity. }
  cbv zeta. destruct d as [m p s g].
  rewrite mode_store_result, mode_store_final.
  destruct m; cbn [mode_show bind read_mode ret result final fst snd mode];
    (split; [|split; [|reflexivity]]).
  all: try (rewrite to_ssize_t_small by (vm_compute nbytes; lia); reflexivity).
  all: cbv zeta; vm_compute nbytes; rewrite to_size_t_small by (simpl; lia);
    reflexivity.
Qed.

Lemma mode_show_store_round_trip_witness :
  8 <= 32 /\
  mode (final (mode_store 32 (line "corre") 6 (Driver DER 250 1 (Leds false true false false))))
  = CORRE.
Proof.
  assert (H : 8 <= 32) by lia.
  split; [exact H|].
  exact (proj1 (mode_show_store_round_trip 32
                  (Driver CORRE 1000 0 (Leds true false false false))
                  (Driver DER 250 1 (Leds false true false false)) H)).
Defined.

(** *** Decimal text *)

Lemma digit_char_code n : 0 <= n <= 9 -> code (digit_char n) = 48 + n.
Proof.
  intros H. unfold code, digit_char.
  rewrite N_ascii_embedding by lia.
  apply Z2N.id. lia.
Qed.

Lemma mod10_digit v : 0 <= v mod 10 <= 9.
Proof. pose proof (Z.mod_pos_bound v 10 ltac:(lia)). lia. Qed.

Lemma isdigit_digit_char v : isdigit (digit_char (v mod 10)) = true.
Proof.
  unfold isdigit. rewrite digit_char_code by apply mod10_digit.
  pose proof (mod10_digit v) as H. cbv zeta.
  apply andb_true_iff. split; apply Z.leb_le; lia.
Qed.

Lemma put_dec_acc fuel : forall v acc,
  put_dec fuel v acc = (put_dec fuel v EmptyString ++ acc)%string.
Proof.
  induction fuel as [|fuel IH]; intros v acc.
  - reflexivity.
  - cbn [put_dec]. cbv zeta. destruct (v / 10 =? 0).
    + reflexivity.
    + rewrite (IH (v / 10) (String _ acc)), (IH (v / 10) (String _ EmptyString)).
      induction (put_dec fuel (v / 10) EmptyString) as [|c s IHs]; simpl.
      * reflexivity.
      * rewrite IHs. reflexivity.
Qed.

Lemma all_digits_app s1 s2 :
  all_digits (s1 ++ s2) = all_digits s1 && all_digits s2.
Proof.
  induction s1 as [|c s1 IH]; simpl.
  - reflexivity.
  - rewrite IH, andb_assoc. reflexivity.
Qed.

Lemma digits_app s1 : forall a s2,
  all_digits s1 = true -> digits a (s1 ++ s2) = digits (digits a s1) s2.
Proof.
  induction s1 as [|c s1 IH]; intros a s2 H.
  - destruct s2; reflexivity.
  - cbn [all_digits] in H. apply andb_true_iff in H as [Hc Hs].
    cbn [append digits]. rewrite Hc. apply IH, Hs.
Qed.

(** One more digit in front of the last one. *)
Lemma put_dec_step fuel v :
  put_dec (S fuel) v EmptyString =
  if v / 10 =? 0 then String (digit_char (v mod 10)) EmptyString
  else (put_dec fuel (v / 10) EmptyString ++ String (digit_char (v mod 10)) EmptyString)%string.
Proof.
  cbn [put_dec]. cbv zeta. destruct (v / 10 =? 0); [reflexivity|].
  apply put_dec_acc.
Qed.

Lemma put_dec_all_digits fuel : forall v,
  all_digits (put_dec fuel v EmptyString) = true.
Proof.
  induction fuel as [|fuel IH]; intros v.
  - reflexivity.
  - rewrite put_dec_step. destruct (v / 10 =? 0).
    + cbn [all_digits]. rewrite isdigit_digit_char. reflexivity.
    + rewrite all_digits_app, IH. cbn [all_digits].
      rewrite isdigit_digit_char. reflexivity.
Qed.

Lemma put_dec_nonempty fuel v :
  (1 <= String.length (put_dec (S fuel) v EmptyString))%nat.
Proof.
  rewrite put_dec_step. destruct (v / 10 =? 0).
  - simpl. lia.
  - rewrite length_append. simpl. lia.
Qed.

Lemma tenth_bound fuel v :
  0 <= v < 2 ^ Z.of_nat (S fuel) -> 0 <= v / 10 < 2 ^ Z.of_nat fuel.
Proof.
  intros [Hlo Hhi].
  rewrite Nat2Z.inj_succ, Z.pow_succ_r in Hhi by lia.
  split.
  - apply Z.div_pos; lia.
  - apply Z.div_lt_upper_bound; lia.
Qed.

Lemma digits_put_dec fuel : forall v,
  0 <= v < 2 ^ Z.of_nat fuel -> digits 0 (put_dec fuel v EmptyString) = v.
Proof.
  induction fuel as [|fuel IH]; intros v Hv.
  - simpl in Hv. simpl. lia.
  - rewrite put_dec_step.
    pose proof (Z.div_mod v 10 ltac:(lia)) as Hdm.
    pose proof (mod10_digit v) as Hm.
    destruct (Z.eqb_spec (v / 10) 0) as [H0|Hn0].
    + cbn [digits]. rewrite isdigit_digit_char, digit_char_code by exact Hm. lia.
    + rewrite digits_app by apply put_dec_all_digits.
      rewrite (IH (v / 10)) by (apply tenth_bound, Hv).
      cbn [digits]. rewrite isdigit_digit_char, digit_char_code by exact Hm. lia.
Qed.

Lemma isdigit_not_space c : isdigit c = true -> isspace c = false.
Proof.
  unfold isdigit, isspace. cbv zeta. intros H.
  apply andb_true_iff in H as [H1 H2].
  apply Z.leb_le in H1. apply Z.leb_le in H2.
  destruct (Z.leb_spec 9 (code c)); destruct (Z.leb_spec (code c) 13);
    destruct (Z.eqb_spec (code c) 32); destruct (Z.eqb_spec (code c) 160);
    simpl; try reflexivity; lia.
Qed.

Lemma isdigit_not_minus c : isdigit c = true -> (code c =? 45) = false.
Proof.
  unfold isdigit. cbv zeta. intros H.
  apply andb_true_iff in H as [H1 H2].
  apply Z.leb_le in H1. apply Z.eqb_neq. lia.
Qed.

(** The text of a magnitude starts with a digit. *)
Lemma decimal_head v :
  exists c s, decimal v = String c s /\ isdigit c = true.
Proof.
  unfold decimal.
  pose proof (put_dec_all_digits 32 v) as Hall.
  pose proof (put_dec_nonempty 31 v) as Hlen.
  destruct (put_dec 32 v EmptyString) as [|c s].
  - simpl in Hlen. lia.
  - exists c, s. cbn [all_digits] in Hall.
    apply andb_true_iff in Hall as [Hc _]. split; [reflexivity | exact Hc].
Qed.

Lemma digits_decimal_line v :
  0 <= v < 2 ^ 32 -> digits 0 (line (decimal v)) = v.
Proof.
  intros Hv. unfold line, decimal.
  rewrite digits_app by apply put_dec_all_digits.
  rewrite digits_put_dec by exact Hv. reflexivity.
Qed.

(** What [sprintf] prints with [%d], [sscanf] reads back with [%d]. *)
Lemma sscanf_sprintf v :
  - 2 ^ 32 < v < 2 ^ 32 -> sscanf_d (line (sprintf_d v)) = Some v.
Proof.
  intros Hv. unfold sprintf_d, sscanf_d.
  destruct (Z.ltb_spec v 0) as [Hneg|Hpos].
  - change (line (String "-"%char (decimal (- v))))
      with (String "-"%char (line (decimal (- v)))).
    cbn [skip_spaces]. change (isspace "-"%char) with false. cbv iota.
    change (code "-"%char =? 45) with true. cbv iota.
    destruct (decimal_head (- v)) as [c [s [Hd Hc]]].
    pose proof (digits_decimal_line (- v) ltac:(lia)) as Hdig.
    rewrite Hd in *. unfold line in *. cbn [append starts_with_digit].
    rewrite Hc. cbn [append] in Hdig. rewrite Hdig. f_equal. lia.
  - destruct (decimal_head v) as [c [s [Hd Hc]]].
    pose proof (digits_decimal_line v ltac:(lia)) as Hdig.
    rewrite Hd in *. unfold line in *. cbn [append skip_spaces] in *.
    rewrite (isdigit_not_space c Hc), (isdigit_not_minus c Hc), Hc, Hdig.
    reflexivity.
Qed.

Lemma to_int_range v : - 2 ^ 31 <= to_int v < 2 ^ 31.
Proof.
  unfold to_int. cbv zeta.
  pose proof (Z.mod_pos_bound v (2 ^ 32) ltac:(lia)) as Hm.
  destruct (Z.ltb_spec (v mod 2 ^ 32) (2 ^ 31)); lia.
Qed.

Lemma to_uint_to_int v : 0 <= v < 2 ^ 32 -> to_uint (to_int v) = v.
Proof.
  intros Hv. unfold to_uint, to_int, UINT_BITS. cbv zeta.
  rewrite (Z.mod_small v) by lia.
  destruct (Z.ltb_spec v (2 ^ 31)).
  - apply Z.mod_small. lia.
  - symmetry. apply (Z.mod_unique (v - 2 ^ 32) (2 ^ 32) (-1)); lia.
Qed.

Lemma period_show_text d :
  result (period_show d)
  = (line (sprintf_d (to_int (blinkPeriod d))),
     nbytes (line (sprintf_d (to_int (blinkPeriod d))))) /\
  final (period_show d) = d.
Proof. split; reflexivity. Qed.

Lemma scanned_period_of_shown uninit d :
  0 <= blinkPeriod d < 2 ^ 32 ->
  scanned_period (fst (result (period_show d))) uninit = blinkPeriod d.
Proof.
  intros Hu. destruct (period_show_text d) as [Hr _]. rewrite Hr. cbn [fst].
  unfold scanned_period.
  rewrite sscanf_sprintf by (pose proof (to_int_range (blinkPeriod d)); lia).
  apply to_uint_to_int, Hu.
Qed.

(** X8.  The text [period_show] prints is read back by [period_store] as
    the same number: writing it back never changes [blinkPeriod] (even when
    the module was loaded with a period outside 2..10000), and when the
    period shown is a valid one, writing that text sets exactly this period
    over any other. *)
Theorem period_show_store_round_trip (bits count uninit : Z) (d d' : driver)
    (Hu : 0 <= blinkPeriod d < 2 ^ 32) :
  let shown := fst (result (period_show d)) in
  sscanf_d shown = Some (to_int (blinkPeriod d)) /\
  blinkPeriod (final (period_store bits shown count uninit d)) = blinkPeriod d /\
  (valid_period d ->
   blinkPeriod (final (period_store bits shown count uninit d')) = blinkPeriod d).
Proof.
  cbv zeta. split; [|split].
  - destruct (period_show_text d) as [Hr _]. rewrite Hr. cbn [fst].
    apply sscanf_sprintf. pose proof (to_int_range (blinkPeriod d)). lia.
  - rewrite period_store_final. cbv zeta.
    rewrite scanned_period_of_shown by exact Hu. cbn [blinkPeriod].
    destruct ((1 <? blinkPeriod d) && (blinkPeriod d <=? 10000)); reflexivity.
  - intros [Hlo Hhi]. rewrite period_store_final. cbv zeta.
    rewrite scanned_period_of_shown by exact Hu. cbn [blinkPeriod].
    apply Z.ltb_lt in Hlo. apply Z.leb_le in Hhi. rewrite Hlo, Hhi. reflexivity.
Qed.

Lemma period_show_store_round_trip_witness :
  0 <= blinkPeriod (Driver DER 750 0 (Leds true false false false)) < 2 ^ 32 /\
  fst (result (period_show (Driver DER 750 0 (Leds true false false false)))) = line "750" /\
  blinkPeriod (final (period_store 64 (line "750") 4 0
                        (Driver DER 750 0 (Leds true false false false)))) = 750.
Proof.
  assert (H : 0 <= blinkPeriod (Driver DER 750 0 (Leds true false false false)) < 2 ^ 32).
  { simpl; lia. }
  split; [exact H | split; [reflexivity|]].
  exact (proj1 (proj2 (period_show_store_round_trip 64 4 0
           (Driver DER 750 0 (Leds true false false false))
           (Driver DER 750 0 (Leds true false false false)) H))).
Defined.

(** X9.  [period_store] does not return [count]: for a request read as an
    accepted period [v] it returns [v] itself, so the writer is told that
    [v] bytes were consumed whatever the length of the request was. *)
Theorem period_store_returns_period (bits : Z) (buf : string) (count uninit v : Z)
    (d : driver)
    (Hbits : 16 <= bits)
    (Hscan : sscanf_d buf = Some v)
    (Hacc : 1 < v <= 10000) :
  result (period_store bits buf count uninit d) = v /\
  blinkPeriod (final (period_store bits buf count uninit d)) = v.
Proof.
  assert (Hp : 2 ^ 15 <= 2 ^ (bits - 1)) by (apply Z.pow_le_mono_r; lia).
  assert (Hu : to_uint v = v).
  { unfold to_uint, UINT_BITS. apply Z.mod_small. lia. }
  split.
  - unfold period_store. rewrite bind_run, result_triple, Hscan, Hu.
    change (result (ret ?x ?y)) with x.
    apply to_ssize_t_small. lia.
  - rewrite period_store_final. unfold scanned_period. rewrite Hscan, Hu.
    cbv zeta. cbn [blinkPeriod].
    destruct Hacc as [Hlo Hhi].
    apply Z.ltb_lt in Hlo. apply Z.leb_le in Hhi. rewrite Hlo, Hhi. reflexivity.
Qed.

Lemma period_store_returns_period_witness :
  16 <= 64 /\ sscanf_d (line "500") = Some 500 /\ 1 < 500 <= 10000 /\
  result (period_store 64 (line "500") 4 0 (Driver DER 1000 0 (Leds true false false false)))
  = 500.
Proof.
  assert (H1 : 16 <= 64) by lia.
  assert (H2 : sscanf_d (line "500") = Some 500) by reflexivity.
  assert (H3 : 1 < 500 <= 10000) by lia.
  split; [exact H1 | split; [exact H2 | split; [exact H3|]]].
  exact (proj1 (period_store_returns_period 64 (line "500") 4 0 500
                  (Driver DER 1000 0 (Leds true false false false)) H1 H2 H3)).
Defined.

(** ** Loading and unloading *)

Import Lifecycle.

Lemma to_int_small v : - 2 ^ 31 <= v < 2 ^ 31 -> to_int v = v.
Proof.
  intros Hv. unfold to_int. cbv zeta.
  destruct (Z_lt_le_dec v 0) as [Hneg|Hpos].
  - assert (Hm : v mod 2 ^ 32 = v + 2 ^ 32).
    { symmetry. apply (Z.mod_unique v (2 ^ 32) (-1)); lia. }
    rewrite Hm. destruct (Z.ltb_spec (v + 2 ^ 32) (2 ^ 31)); lia.
  - rewrite Z.mod_small by lia. destruct (Z.ltb_spec v (2 ^ 31)); lia.
Qed.

(** The three ways [erpi_LED_init] can end, with [to_int] and the name
    kept folded. *)
Lemma erpi_LED_init_no_kobject env s :
  kobject_created env = false ->
  erpi_LED_init env s =
  (- ENOMEM,
   with_kobj false (with_ledName ("led" ++ sprintf_d (to_int (gpioLED s))) s),
   [KPrintk MSG_INIT; KobjectCreateAndAdd "erpi"; KPrintk MSG_NO_KOBJECT]).
Proof.
  intros Hk. unfold erpi_LED_init, kobject_create_and_add, lbind, call, read, update, lret.
  rewrite Hk. reflexivity.
Qed.

Lemma erpi_LED_init_no_group env s :
  kobject_created env = true ->
  to_int (group_status env) <> 0 ->
  erpi_LED_init env s =
  (to_int (group_status env),
   with_kobj true (with_ledName ("led" ++ sprintf_d (to_int (gpioLED s))) s),
   [KPrintk MSG_INIT; KobjectCreateAndAdd "erpi";
    SysfsCreateGroup ("led" ++ sprintf_d (to_int (gpioLED s)));
    KPrintk MSG_NO_GROUP; KobjectPut]).
Proof.
  intros Hk Hg. apply Z.eqb_neq in Hg.
  unfold erpi_LED_init, kobject_create_and_add, sysfs_create_group,
    lbind, call, read, update, lret.
  rewrite Hk. cbn [negb]. cbv iota. rewrite Hg. reflexivity.
Qed.

Lemma erpi_LED_init_lines_up env s :
  kobject_created env = true ->
  to_int (group_status env) = 0 ->
  erpi_LED_init env s =
  (if IS_ERR (thread env) then to_int (PTR_ERR (thread env)) else 0,
   Lkm (gpioLED s) ("led" ++ sprintf_d (to_int (gpioLED s))) true true (thread env)
       (Driver (mode (drv s)) (blinkPeriod (drv s)) (state (drv s))
               (Leds true true true true)),
   [KPrintk MSG_INIT; KobjectCreateAndAdd "erpi";
    SysfsCreateGroup ("led" ++ sprintf_d (to_int (gpioLED s)));
    GpioRequest LED1 "sysfs"; GpioRequest LED2 "sysfs";
    GpioRequest LED3 "sysfs"; GpioRequest LED4 "sysfs";
    GpioDirectionOutput LED1 true; GpioDirectionOutput LED2 true;
    GpioDirectionOutput LED3 true; GpioDirectionOutput LED4 true;
    GpioExport LED1 false; GpioExport LED2 false;
    GpioExport LED3 false; GpioExport LED4 false;
    KthreadRun "LED_flash_thread"]
   ++ (if IS_ERR (thread env) then [KPrintk MSG_NO_TASK] else [])).
Proof.
  intros Hk Hg.
  unfold erpi_LED_init, kobject_create_and_add, sysfs_create_group, kthread_run,
    gpio_direction_output, lbind, call, read, update, lret.
  rewrite Hk. cbn [negb]. cbv iota. rewrite Hg.
  destruct (thread env); reflexivity.
Qed.

(** X10.  [erpi_LED_init] reports success exactly when the kobject, the
    sysfs group and the thread were all obtained; otherwise it returns
    -ENOMEM, the status of [sysfs_create_group] or the error carried by the
    task pointer, in that order of precedence. *)
Theorem erpi_LED_init_status (env : load_env) (s : lkm)
    (Hgroup : - 2 ^ 31 <= group_status env < 2 ^ 31)
    (Hthread : forall e, thread env = TaskErr e -> - 4095 <= e <= - 1) :
  (status (erpi_LED_init env s) = 0 <->
   kobject_created env = true /\ group_status env = 0 /\ IS_ERR (thread env) = false) /\
  status (erpi_LED_init env s) =
    (if negb (kobject_created env) then - 12
     else if negb (group_status env =? 0) then group_status env
     else PTR_ERR (thread env)).
Proof.
  pose proof (to_int_small _ Hgroup) as Hg.
  destruct (kobject_created env) eqn:Hk.
  - destruct (Z.eqb_spec (group_status env) 0) as [H0|Hn0].
    + rewrite erpi_LED_init_lines_up by (try assumption; rewrite Hg; exact H0).
      unfold status. cbn [fst negb].
      destruct (thread env) as [|id|e] eqn:Ht; cbn [IS_ERR PTR_ERR].
      * split; [|reflexivity]. split; [auto | reflexivity].
      * split; [|reflexivity]. split; [auto | reflexivity].
      * specialize (Hthread e eq_refl).
        rewrite to_int_small by lia.
        split; [|reflexivity].
        split; [intros He; lia | intros [_ [_ Hf]]; discriminate Hf].
    + rewrite erpi_LED_init_no_group by (try assumption; rewrite Hg; exact Hn0).
      unfold status. cbn [fst negb]. rewrite Hg.
      split; [|reflexivity].
      split; [intros He; contradiction | intros [_ [He _]]; contradiction].
  - rewrite erpi_LED_init_no_kobject by assumption.
    unfold status. cbn [fst negb].
    split; [|reflexivity].
    split; [intros He; discriminate He | intros [Hf _]; discriminate Hf].
Qed.

Lemma erpi_LED_init_status_witness :
  - 2 ^ 31 <= group_status (LoadEnv true 0 (TaskErr (-12))) < 2 ^ 31 /\
  (forall e, thread (LoadEnv true 0 (TaskErr (-12))) = TaskErr e -> - 4095 <= e <= - 1) /\
  status (erpi_LED_init (LoadEnv true 0 (TaskErr (-12)))
            (Lkm 17 "ledXXX" false false TaskUnset
                 (Driver DER 1000 0 (Leds false false false false)))) = - 12.
Proof.
  assert (H1 : - 2 ^ 31 <= group_status (LoadEnv true 0 (TaskErr (-12))) < 2 ^ 31).
  { simpl; lia. }
  assert (H2 : forall e, thread (LoadEnv true 0 (TaskErr (-12))) = TaskErr e ->
                         - 4095 <= e <= - 1).
  { simpl. intros e He. injection He as <-. lia. }
  split; [exact H1 | split; [exact H2|]].
  exact (proj2 (erpi_LED_init_status (LoadEnv true 0 (TaskErr (-12)))
                  (Lkm 17 "ledXXX" false false TaskUnset
                       (Driver DER 1000 0 (Leds false false false false))) H1 H2)).
Defined.

(** X11.  With a [gpioLED] whose name fits [ledName] (at most 999), when
    the kobject or the sysfs group cannot be created, [erpi_LED_init] gives
    up before it touches any GPIO line or starts the thread: it makes no
    such call, leaves the sequencer's variables and the lines as they were,
    and drops the kobject exactly when it had obtained one. *)
Theorem erpi_LED_init_early_failure (env : load_env) (s : lkm)
    (Hname : 0 <= gpioLED s <= 999)
    (Hfail : kobject_created env = false \/ to_int (group_status env) <> 0) :
  forallb (fun c => negb (touches_hardware c)) (calls (erpi_LED_init env s)) = true /\
  drv (after (erpi_LED_init env s)) = drv s /\
  task (after (erpi_LED_init env s)) = task s /\
  existsb is_kobject_put (calls (erpi_LED_init env s)) = kobject_created env.
Proof.
  destruct (kobject_created env) eqn:Hk.
  - destruct Hfail as [Hf|Hg]; [discriminate Hf|].
    rewrite erpi_LED_init_no_group by assumption.
    repeat split; reflexivity.
  - rewrite erpi_LED_init_no_kobject by assumption.
    repeat split; reflexivity.
Qed.

Lemma erpi_LED_init_early_failure_witness :
  0 <= gpioLED (Lkm 17 "ledXXX" false false TaskUnset
                  (Driver DER 1000 0 (Leds false false false false))) <= 999 /\
  (kobject_created (LoadEnv true (-17) (Task 1)) = false \/
   to_int (group_status (LoadEnv true (-17) (Task 1))) <> 0) /\
  existsb is_kobject_put
    (calls (erpi_LED_init (LoadEnv true (-17) (Task 1))
              (Lkm 17 "ledXXX" false false TaskUnset
                   (Driver DER 1000 0 (Leds false false false false))))) = true /\
  drv (after (erpi_LED_init (LoadEnv true (-17) (Task 1))
                (Lkm 17 "ledXXX" false false TaskUnset
                     (Driver DER 1000 0 (Leds false false false false)))))
  = Driver DER 1000 0 (Leds false false false false).
Proof.
  assert (Hn : 0 <= gpioLED (Lkm 17 "ledXXX" false false TaskUnset
                  (Driver DER 1000 0 (Leds false false false false))) <= 999).
  { simpl; lia. }
  assert (H : kobject_created (LoadEnv true (-17) (Task 1)) = false \/
              to_int (group_status (LoadEnv true (-17) (Task 1))) <> 0).
  { right. vm_compute. discriminate. }
  destruct (erpi_LED_init_early_failure (LoadEnv true (-17) (Task 1))
              (Lkm 17 "ledXXX" false false TaskUnset
                   (Driver DER 1000 0 (Leds false false false false))) Hn H)
    as [_ [Hdrv [_ Hput]]].
  split; [exact Hn | split; [exact H | split; [exact Hput | exact Hdrv]]].
Defined.

(** X12.  With a [gpioLED] whose name fits [ledName] (at most 999), when
    the kobject and the group exist, [erpi_LED_init] claims and exports the
    four LED lines and drives all of them high before it starts the thread;
    this holds whether or not the thread can be started, and [mode],
    [blinkPeriod] and [state] are not touched. *)
Theorem erpi_LED_init_lines_high (env : load_env) (s : lkm)
    (Hname : 0 <= gpioLED s <= 999)
    (Hk : kobject_created env = true)
    (Hg : to_int (group_status env) = 0) :
  pattern (gpio (drv (after (erpi_LED_init env s)))) = [true; true; true; true] /\
  ledOn (after (erpi_LED_init env s)) = true /\
  flat_map requested (calls (erpi_LED_init env s)) = [LED1; LED2; LED3; LED4] /\
  flat_map exported (calls (erpi_LED_init env s)) = [LED1; LED2; LED3; LED4] /\
  observe_controls (drv (after (erpi_LED_init env s))) = observe_controls (drv s).
Proof.
  rewrite erpi_LED_init_lines_up by assumption.
  unfold after, calls. cbn [fst snd].
  destruct (IS_ERR (thread env)); repeat split; reflexivity.
Qed.

Lemma erpi_LED_init_lines_high_witness :
  0 <= gpioLED (Lkm 17 "ledXXX" false false TaskUnset
                  (Driver DER 1000 0 (Leds false false false false))) <= 999 /\
  kobject_created (LoadEnv true 0 (Task 1)) = true /\
  to_int (group_status (LoadEnv true 0 (Task 1))) = 0 /\
  pattern (gpio (drv (after (erpi_LED_init (LoadEnv true 0 (Task 1))
      (Lkm 17 "ledXXX" false false TaskUnset
           (Driver DER 1000 0 (Leds false false false false)))))))
  = [true; true; true; true].
Proof.
  assert (Hn : 0 <= gpioLED (Lkm 17 "ledXXX" false false TaskUnset
                  (Driver DER 1000 0 (Leds false false false false))) <= 999).
  { simpl; lia. }
  split; [exact Hn | split; [reflexivity | split; [reflexivity|]]].
  exact (proj1 (erpi_LED_init_lines_high (LoadEnv true 0 (Task 1))
                  (Lkm 17 "ledXXX" false false TaskUnset
                       (Driver DER 1000 0 (Leds false false false false)))
                  Hn eq_refl eq_refl)).
Defined.

(** X13.  When the thread cannot be started, [erpi_LED_init] returns the
    error with the four lines still claimed, exported and driven high and
    the kobject still registered: it makes no releasing call at all. *)
Theorem erpi_LED_init_thread_failure_releases_nothing (env : load_env) (s : lkm)
    (e : Z)
    (Hk : kobject_created env = true)
    (Hg : to_int (group_status env) = 0)
    (Ht : thread env = TaskErr e)
    (He : - 4095 <= e <= - 1) :
  status (erpi_LED_init env s) = e /\
  forallb (fun c => negb (releases c)) (calls (erpi_LED_init env s)) = true /\
  flat_map requested (calls (erpi_LED_init env s)) = [LED1; LED2; LED3; LED4] /\
  erpi_kobj (after (erpi_LED_init env s)) = true.
Proof.
  rewrite erpi_LED_init_lines_up by assumption.
  rewrite Ht. unfold status, after, calls. cbn [fst snd IS_ERR PTR_ERR].
  rewrite to_int_small by lia.
  repeat split; reflexivity.
Qed.

Lemma erpi_LED_init_thread_failure_releases_nothing_witness :
  kobject_created (LoadEnv true 0 (TaskErr (-12))) = true /\
  to_int (group_status (LoadEnv true 0 (TaskErr (-12)))) = 0 /\
  thread (LoadEnv true 0 (TaskErr (-12))) = TaskErr (-12) /\
  - 4095 <= -12 <= - 1 /\
  status (erpi_LED_init (LoadEnv true 0 (TaskErr (-12)))
            (Lkm 17 "ledXXX" false false TaskUnset
                 (Driver DER 1000 0 (Leds false false false false)))) = -12.
Proof.
  assert (He : - 4095 <= -12 <= - 1) by lia.
  split; [reflexivity | split; [reflexivity | split; [reflexivity | split; [exact He|]]]].
  exact (proj1 (erpi_LED_init_thread_failure_releases_nothing
                  (LoadEnv true 0 (TaskErr (-12)))
                  (Lkm 17 "ledXXX" false false TaskUnset
                       (Driver DER 1000 0 (Leds false false false false)))
                  (-12) eq_refl eq_refl eq_refl He)).
Defined.

Lemma erpi_LED_exit_run s :
  erpi_LED_exit s =
  (tt, drive_line (gpioLED s) false s,
   [KthreadStop; KobjectPut; GpioSetValue (gpioLED s) false;
    GpioUnexport (gpioLED s);
    GpioUnexport LED1; GpioUnexport LED2; GpioUnexport LED3; GpioUnexport LED4;
    GpioFree (gpioLED s);
    GpioFree LED1; GpioFree LED2; GpioFree LED3; GpioFree LED4;
    KPrintk MSG_GOODBYE]).
Proof. reflexivity. Qed.

Lemma set_line_other pin v g : is_led_pin pin = false -> set_line pin v g = g.
Proof.
  unfold is_led_pin, set_line. intros H.
  apply orb_false_iff in H as [H H4]. apply orb_false_iff in H as [H H3].
  apply orb_false_iff in H as [H1 H2].
  rewrite H1, H2, H3, H4. reflexivity.
Qed.

(** X14.  In every state [erpi_LED_exit] calls [kthread_stop] before
    anything else and makes one output write only,
    [gpio_set_value(gpioLED, 0)].  When [gpioLED] is none of the four LED
    pins (its default is 17) the four lines keep the levels the thread left,
    so unloading does not switch the LEDs off; when it is one of them, that
    line alone is driven low. *)
Theorem erpi_LED_exit_keeps_leds (s : lkm) :
  hd_error (calls (erpi_LED_exit s)) = Some KthreadStop /\
  filter touches_hardware (calls (erpi_LED_exit s)) = [GpioSetValue (gpioLED s) false] /\
  gpio (drv (after (erpi_LED_exit s)))
  = (if is_led_pin (gpioLED s) then set_line (gpioLED s) false (gpio (drv s))
     else gpio (drv s)).
Proof.
  rewrite erpi_LED_exit_run. unfold after, calls. cbn [fst snd].
  split; [reflexivity | split; [reflexivity|]].
  unfold drive_line, with_drv. cbn [drv gpio].
  destruct (is_led_pin (gpioLED s)) eqn:Hpin.
  - reflexivity.
  - apply set_line_other, Hpin.
Qed.



(** *** The name of the attribute group *)

Lemma put_dec_length fuel v :
  String.length (put_dec (S fuel) v EmptyString) =
  if v / 10 =? 0 then 1%nat
  else S (String.length (put_dec fuel (v / 10) EmptyString)).
Proof.
  rewrite put_dec_step. destruct (v / 10 =? 0).
  - reflexivity.
  - rewrite length_append. simpl. lia.
Qed.

Lemma tenth_zero v : 0 <= v < 10 -> (v / 10 =? 0) = true.
Proof. intros H. apply Z.eqb_eq, Z.div_small, H. Qed.

Lemma tenth_nonzero v : 10 <= v -> (v / 10 =? 0) = false.
Proof.
  intros H. apply Z.eqb_neq.
  pose proof (Z.div_le_lower_bound v 10 1 ltac:(lia) ltac:(lia)). lia.
Qed.

Lemma tenth_ge v k : 0 <= k -> 10 * k <= v -> k <= v / 10.
Proof. intros Hk H. apply Z.div_le_lower_bound; lia. Qed.

Lemma tenth_lt v k : 0 <= v < 10 * k -> v / 10 < k.
Proof. intros H. apply Z.div_lt_upper_bound; lia. Qed.

(** A magnitude prints in at most three characters exactly when it is
    below 1000. *)
Lemma decimal_length_3 v :
  0 <= v -> ((String.length (decimal v) <= 3)%nat <-> v < 1000).
Proof.
  intros Hv. unfold decimal.
  change 32%nat with (S (S (S (S 28)))).
  rewrite put_dec_length.
  destruct (Z_lt_le_dec v 10) as [H10|H10].
  { rewrite tenth_zero by lia. split; intros; lia. }
  rewrite tenth_nonzero by lia. rewrite put_dec_length.
  assert (Hq1 : 0 <= v / 10) by (apply Z.div_pos; lia).
  destruct (Z_lt_le_dec v 100) as [H100|H100].
  { rewrite tenth_zero by (split; [lia | apply tenth_lt; lia]).
    split; intros; lia. }
  rewrite tenth_nonzero by (apply tenth_ge; lia). rewrite put_dec_length.
  assert (Hq2 : 0 <= v / 10 / 10) by (apply Z.div_pos; lia).
  destruct (Z_lt_le_dec v 1000) as [H1000|H1000].
  { rewrite tenth_zero
      by (split; [lia | apply tenth_lt; split; [lia | apply tenth_lt; lia]]).
    split; intros; lia. }
  rewrite tenth_nonzero by (apply tenth_ge; [lia | apply tenth_ge; lia]).
  pose proof (put_dec_nonempty 28 (v / 10 / 10 / 10)) as Hne.
  split; intros; lia.
Qed.

Lemma erpi_LED_init_name env s :
  ledName (after (erpi_LED_init env s)) = ("led" ++ sprintf_d (to_int (gpioLED s)))%string.
Proof.
  destruct (kobject_created env) eqn:Hk.
  - destruct (Z.eq_dec (to_int (group_status env)) 0) as [Hg|Hg].
    + rewrite erpi_LED_init_lines_up by assumption. reflexivity.
    + rewrite erpi_LED_init_no_group by assumption. reflexivity.
  - rewrite erpi_LED_init_no_kobject by assumption. reflexivity.
Qed.

(** X16.  On every path [erpi_LED_init] formats the group name as "led"
    followed by the decimal [gpioLED].  With its terminating NUL that text
    fits the seven bytes of [ledName] exactly when [gpioLED] is at most 999;
    a larger pin number is written past the end of the array. *)
Theorem erpi_LED_init_name_fits (env : load_env) (s : lkm)
    (Hpin : 0 <= gpioLED s < 2 ^ 31) :
  ledName (after (erpi_LED_init env s)) = ("led" ++ decimal (gpioLED s))%string /\
  (nbytes (ledName (after (erpi_LED_init env s))) + 1 <= LEDNAME_SIZE
   <-> gpioLED s <= 999).
Proof.
  rewrite erpi_LED_init_name, to_int_small by lia.
  unfold sprintf_d. destruct (Z.ltb_spec (gpioLED s) 0) as [Hneg|_]; [lia|].
  split; [reflexivity|].
  unfold nbytes, LEDNAME_SIZE. rewrite length_append.
  change (String.length "led") with 3%nat.
  pose proof (decimal_length_3 (gpioLED s) ltac:(lia)) as [H1 H2].
  split; intros H.
  - assert (String.length (decimal (gpioLED s)) <= 3)%nat by lia.
    specialize (H1 ltac:(assumption)). lia.
  - specialize (H2 ltac:(lia)). lia.
Qed.

Lemma erpi_LED_init_name_fits_witness :
  0 <= gpioLED (Lkm 1000 "ledXXX" false false TaskUnset
                  (Driver DER 1000 0 (Leds false false false false))) < 2 ^ 31 /\
  ledName (after (erpi_LED_init (LoadEnv true 0 (Task 1))
                    (Lkm 1000 "ledXXX" false false TaskUnset
                         (Driver DER 1000 0 (Leds false false false false)))))
  = "led1000"%string.
Proof.
  assert (H : 0 <= gpioLED (Lkm 1000 "ledXXX" false false TaskUnset
                  (Driver DER 1000 0 (Leds false false false false))) < 2 ^ 31).
  { simpl; lia. }
  split; [exact H|].
  exact (proj1 (erpi_LED_init_name_fits (LoadEnv true 0 (Task 1)) _ H)).
Defined.

(** X17.  Load, run, unload: after a successful [erpi_LED_init], a thread
    that makes at least one pass and an [erpi_LED_exit] with [gpioLED] off
    the LED pins, exactly one LED is still lit. *)
Theorem load_run_unload_leaves_one_led (bits : Z) (env : load_env)
    (e : env_tick) (sched : list env_tick) (s : lkm)
    (Hk : kobject_created env = true)
    (Hg : to_int (group_status env) = 0)
    (Hstate : state (drv s) = 0)
    (Hgo : should_stop e = false)
    (Hpin : is_led_pin (gpioLED s) = false) :
  let s1 := after (erpi_LED_init env s) in
  let d2 := final (flash bits (e :: sched) (drv s1)) in
  let s3 := after (erpi_LED_exit (with_drv d2 s1)) in
  pattern (gpio (drv s1)) = [true; true; true; true] /\
  active (gpio (drv s3)) = 1%nat.
Proof.
  cbv zeta. rewrite erpi_LED_init_lines_up by assumption.
  unfold after at 1 2 3. cbn [fst snd drv].
  split; [reflexivity|].
  rewrite erpi_LED_exit_run. unfold after. cbn [fst snd].
  unfold drive_line, with_drv. cbn [drv gpio gpioLED].
  rewrite set_line_other by exact Hpin.
  apply flash_first_pass_active; [exact Hstate | exact Hgo].
Qed.

Lemma load_run_unload_leaves_one_led_witness :
  let s := Lkm 17 "ledXXX" false false TaskUnset
               (Driver DER 1000 0 (Leds false false false false)) in
  let env := LoadEnv true 0 (Task 1) in
  let e := EnvTick [] false [] in
  kobject_created env = true /\ to_int (group_status env) = 0 /\
  state (drv s) = 0 /\ should_stop e = false /\ is_led_pin (gpioLED s) = false /\
  active (gpio (drv (after (erpi_LED_exit
      (with_drv (final (flash 64 [e; EnvTick [] true []]
                         (drv (after (erpi_LED_init env s)))))
                (after (erpi_LED_init env s))))))) = 1%nat.
Proof.
  cbv zeta.
  repeat (split; [reflexivity|]).
  exact (proj2 (load_run_unload_leaves_one_led 64 (LoadEnv true 0 (Task 1))
                  (EnvTick [] false []) [EnvTick [] true []]
                  (Lkm 17 "ledXXX" false false TaskUnset
                       (Driver DER 1000 0 (Leds false false false false)))
                  eq_refl eq_refl eq_refl eq_refl eq_refl)).
Defined.

(** ** Two more edges *)

(** X18.  A request in which [sscanf] finds no number is not refused as
    such: the range test then runs on the value the local [period] happens
    to hold, and [blinkPeriod] takes that value whenever it lies in
    2..10000. *)
Theorem period_store_without_number (bits : Z) (buf : string) (count uninit : Z)
    (d : driver)
    (Hscan : sscanf_d buf = None)
    (Hu : 0 <= uninit < 2 ^ 32) :
  blinkPeriod (final (period_store bits buf count uninit d))
  = (if (1 <? uninit) && (uninit <=? 10000) then uninit else blinkPeriod d).
Proof.
  rewrite period_store_final. unfold scanned_period. rewrite Hscan.
  assert (Hv : to_uint uninit = uninit).
  { unfold to_uint, UINT_BITS. apply Z.mod_small. lia. }
  rewrite Hv. reflexivity.
Qed.

Lemma period_store_without_number_witness :
  sscanf_d (line "fast") = None /\ 0 <= 4000 < 2 ^ 32 /\
  blinkPeriod (final (period_store 64 (line "fast") 5 4000
                        (Driver DER 1000 0 (Leds true false false false)))) = 4000.
Proof.
  assert (H1 : sscanf_d (line "fast") = None) by reflexivity.
  assert (H2 : 0 <= 4000 < 2 ^ 32) by lia.
  split; [exact H1 | split; [exact H2|]].
  exact (period_store_without_number 64 (line "fast") 5 4000
           (Driver DER 1000 0 (Leds true false false false)) H1 H2).
Defined.

Lemma sequence_step_writes_all d :
  in_range d ->
  flat_map pin_written (trace (sequence_step d)) = [LED1; LED2; LED3; LED4].
Proof.
  destruct d as [m p s g]. unfold in_range. simpl. intros Hd.
  destruct (in_range_cases m s Hd) as [->|[->|[->|[->|[Hm [->| ->]]]]]];
    destruct m; simpl in *; try lia; reflexivity.
Qed.

(** X19.  No two passes in a row are silent: whatever the step counter
    was, the step that follows a step writes all four lines, LED1 to LED4 in
    that order.  A change of mode therefore costs at most one pass without
    output. *)
Theorem sequence_step_silent_at_most_once (d : driver) :
  flat_map pin_written (trace (sequence_step (final (sequence_step d))))
  = [LED1; LED2; LED3; LED4].
Proof.
  apply sequence_step_writes_all, sequence_step_lands_in_range.
Qed.
